(** * JU Grade Viewer bot ([api.js]): a shallow embedding and its properties

    The development follows the layout of [api.js]:
    - JavaScript strings and the string operations the bot uses;
    - the document trees [cheerio.load] hands to the selectors;
    - the two in-memory maps [users] and [userStates];
    - the portal scraper [fetchGradesFromPortal];
    - the chat handlers [handleStart], [handleHelp], [handleGrades],
      [handleMessage] and the serverless entry point. *)

From Stdlib Require Import String Ascii.
From stdpp Require Import gmap list.

Set Warnings "-register-all".

Local Open Scope N_scope.

(** ** JavaScript strings *)

Module JsString.

(** A JavaScript string is a sequence of UTF-16 code units. *)
Definition jsstring := list N.

(** Decoding of the UTF-8 bytes of a literal of this file to code points. *)
Fixpoint utf8_code_points (bs : list N) : list N :=
  match bs with
  | [] => []
  | b0 :: r0 =>
    if b0 <? 0x80 then b0 :: utf8_code_points r0
    else
      match r0 with
      | [] => []
      | b1 :: r1 =>
        if b0 <? 0xE0
        then ((b0 mod 0x20) * 0x40 + b1 mod 0x40) :: utf8_code_points r1
        else
          match r1 with
          | [] => []
          | b2 :: r2 =>
            if b0 <? 0xF0
            then ((b0 mod 0x10) * 0x1000 + (b1 mod 0x40) * 0x40 + b2 mod 0x40)
                   :: utf8_code_points r2
            else
              match r2 with
              | [] => []
              | b3 :: r3 =>
                ((b0 mod 0x08) * 0x40000 + (b1 mod 0x40) * 0x1000
                 + (b2 mod 0x40) * 0x40 + b3 mod 0x40) :: utf8_code_points r3
              end
          end
      end
  end.

(** UTF-16 encoding of one code point. *)
Definition utf16_units (cp : N) : list N :=
  if cp <? 0x10000 then [cp]
  else [0xD800 + (cp - 0x10000) / 0x400; 0xDC00 + (cp - 0x10000) mod 0x400].

(** The JavaScript string written by a literal of this file. *)
Definition js (s : string) : jsstring :=
  flat_map utf16_units
    (utf8_code_points (List.map N_of_ascii (list_ascii_of_string s))).

(** Line feed, written [\n] in the source, and the double quote. *)
Definition LF : jsstring := [10].
Definition DQUOTE : jsstring := [34].

(** [WhiteSpace] and [LineTerminator] code units of ECMAScript, the ones
    [String.prototype.trim] strips. *)
Definition is_white_space (c : N) : bool :=
  (c =? 0x09) || (c =? 0x0A) || (c =? 0x0B) || (c =? 0x0C) || (c =? 0x0D)
  || (c =? 0x20) || (c =? 0xA0) || (c =? 0x1680)
  || ((0x2000 <=? c) && (c <=? 0x200A))
  || (c =? 0x2028) || (c =? 0x2029) || (c =? 0x202F) || (c =? 0x205F)
  || (c =? 0x3000) || (c =? 0xFEFF).

Fixpoint trimStart (s : jsstring) : jsstring :=
  match s with
  | [] => []
  | c :: s' => if is_white_space c then trimStart s' else s
  end.

Definition trimEnd (s : jsstring) : jsstring := rev (trimStart (rev s)).

(** [s.trim()] *)
Definition trim (s : jsstring) : jsstring := trimEnd (trimStart s).

(** JavaScript truthiness of a value that is [null]/[undefined] ([None]) or
    a string: only a non-empty string is truthy. *)
Definition truthy (v : option jsstring) : bool :=
  match v with
  | Some (_ :: _) => true
  | _ => false
  end.

(** [v || ''] on such a value. *)
Definition or_empty (v : option jsstring) : jsstring :=
  if truthy v then default [] v else [].

(** [===] on two strings. *)
Definition str_eqb (a b : jsstring) : bool := bool_decide (a = b).

End JsString.
Import JsString.

(** ** Documents and the cheerio selectors the scraper uses *)

Module Cheerio.

(** The tree [cheerio.load] builds from a page: text nodes and elements with
    their attributes and children.  A page is identified with its tree. *)
Inductive node :=
| Text (data : jsstring)
| Element (name : jsstring) (attribs : list (jsstring * jsstring))
          (children : list node).

Definition document := list node.

Definition children_of (n : node) : list node :=
  match n with
  | Text _ => []
  | Element _ _ cs => cs
  end.

(** The attribute [a] of an element as the parser stored it, which is what
    the attribute selectors read; [None] when there is none. *)
Definition attr (a : jsstring) (n : node) : option jsstring :=
  match n with
  | Text _ => None
  | Element _ atts _ =>
    snd <$> List.find (fun kv => str_eqb (fst kv) a) atts
  end.

Definition has_tag (tag : jsstring) (n : node) : bool :=
  match n with
  | Text _ => false
  | Element nm _ _ => str_eqb nm tag
  end.

Definition attr_is (a v : jsstring) (n : node) : bool :=
  match attr a n with
  | Some v' => str_eqb v' v
  | None => false
  end.

(** Simple selectors of [api.js]. *)
Definition is_token_input (n : node) : bool :=
  has_tag (js "input") n && attr_is (js "name") (js "__RequestVerificationToken") n.
Definition is_grades_table (n : node) : bool :=
  has_tag (js "table") n && attr_is (js "id") (js "grades") n.
Definition is_tr : node -> bool := has_tag (js "tr").
Definition is_td : node -> bool := has_tag (js "td").

(** The nodes of the subtree of [n] (itself included) that match [p], in
    document order. *)
Fixpoint matching (p : node -> bool) (n : node) : list node :=
  (if p n then [n] else [])
  ++ match n with
     | Text _ => []
     | Element _ _ cs => flat_map (matching p) cs
     end.

(** [$(sel)] on a loaded document, for a simple selector. *)
Definition select (p : node -> bool) (doc : document) : list node :=
  flat_map (matching p) doc.

(** [$(n).find(sel)]: the proper descendants of [n] that match. *)
Definition find (p : node -> bool) (n : node) : list node :=
  flat_map (matching p) (children_of n).

(** The descendant combinator [a b]: nodes matching [b] below a node
    matching [a], each once, in document order.  [inside] tells whether an
    ancestor matched [a]. *)
Fixpoint matching_below (a b : node -> bool) (inside : bool) (n : node)
  : list node :=
  (if inside && b n then [n] else [])
  ++ match n with
     | Text _ => []
     | Element _ _ cs => flat_map (matching_below a b (inside || a n)) cs
     end.

Definition select_below (a b : node -> bool) (doc : document) : list node :=
  flat_map (matching_below a b false) doc.

(** Text content of a node: the text of its subtree, concatenated. *)
Fixpoint textContent (n : node) : jsstring :=
  match n with
  | Text d => d
  | Element _ _ cs => flat_map textContent cs
  end.

(** [$(x).text()] where [x] is one node or [undefined] (an empty set). *)
Definition text (x : option node) : jsstring :=
  match x with
  | Some n => textContent n
  | None => []
  end.

(** [$(n).attr('value')]: the attribute when the element has one; without
    it cheerio mimics the DOM and gives the text of an [option] and the
    default [on] of a radio button or checkbox, and otherwise [undefined]. *)
Definition value_attr (n : node) : option jsstring :=
  match attr (js "value") n with
  | Some v => Some v
  | None =>
    if has_tag (js "option") n
    then Some (flat_map textContent (children_of n))
    else if has_tag (js "input") n
            && (attr_is (js "type") (js "radio") n
                || attr_is (js "type") (js "checkbox") n)
    then Some (js "on")
    else None
  end.

(** Whether a node matching [p] occurs in the subtree of [n]. *)
Fixpoint occurs (p : node -> bool) (n : node) : bool :=
  p n || match n with
         | Text _ => false
         | Element _ _ cs => existsb (occurs p) cs
         end.

Definition occurs_in (p : node -> bool) (doc : document) : bool :=
  existsb (occurs p) doc.

End Cheerio.
Import Cheerio.

(** ** Exceptions, and computations over a store *)

(** What the code can throw: a property access on [undefined], a transport
    failure of [fetch], and the [Error] of line 193. *)
Inductive error := TypeError | FetchError | LoginFailed.

Inductive outcome (A : Type) :=
| Return (a : A)
| Throw (e : error).
Arguments Return {A} a.
Arguments Throw {A} e.

(** A computation reads and writes a store of type [S]; what it wrote before
    throwing stays written. *)
Definition M (S A : Type) : Type := S -> outcome A * S.

Definition ret {S A} (a : A) : M S A := fun s => (Return a, s).
Definition throw {S A} (e : error) : M S A := fun s => (Throw e, s).
Definition bind {S A B} (m : M S A) (k : A -> M S B) : M S B :=
  fun s =>
    match m s with
    | (Return a, s') => k a s'
    | (Throw e, s') => (Throw e, s')
    end.
Definition try_catch {S A} (m : M S A) (h : error -> M S A) : M S A :=
  fun s =>
    match m s with
    | (Return a, s') => (Return a, s')
    | (Throw e, s') => h e s'
    end.
Definition gets {S A} (f : S -> A) : M S A := fun s => (Return (f s), s).
Definition modify {S} (f : S -> S) : M S unit := fun s => (Return tt, f s).

Declare Scope js_scope.
Delimit Scope js_scope with js_do.
Notation "x <- m ;; k" := (bind m (fun x => k))
  (at level 100, m at next level, right associativity) : js_scope.
Notation "m ;; k" := (bind m (fun _ => k))
  (at level 100, right associativity) : js_scope.
Local Open Scope js_scope.

(** The store a computation leaves, and its outcome. *)
Definition exec {S A} (m : M S A) (s : S) : S := snd (m s).
Definition eval {S A} (m : M S A) (s : S) : outcome A := fst (m s).

(** ** The portal and the scraper: [fetchGradesFromPortal] *)

Module Portal.

Inductive http_method := GET | POST.

(** A request as [fetch] receives it: the URL, the method, the form body
    ([URLSearchParams]), the [Cookie] header and the redirect mode. *)
Record request := Request {
  url : jsstring;
  method : http_method;
  body : list (jsstring * jsstring);
  cookie : option jsstring;
  redirect_manual : bool
}.

(** What the scraper reads of a response: [headers.get('set-cookie')] and
    the markup returned by [text()]. *)
Record response := Response {
  set_cookie : option jsstring;
  markup : document
}.

Record grade_record := GradeRecord {
  course : jsstring;
  grade : jsstring;
  semester : jsstring
}.

Definition login_page_request : request :=
  {| url := js "https://portal.ju.edu.et/"; method := GET; body := [];
     cookie := None; redirect_manual := false |}.

Definition login_request (username password token : jsstring) : request :=
  {| url := js "https://portal.ju.edu.et/Account/Login"; method := POST;
     body := [ (js "Username", username);
               (js "Password", password);
               (js "__RequestVerificationToken", token) ];
     cookie := None; redirect_manual := true |}.

Definition grades_request (cookies : option jsstring) : request :=
  {| url := js "https://portal.ju.edu.et/Student/Results"; method := GET;
     body := []; cookie := cookies; redirect_manual := false |}.

(** [$('input[name=...]').attr('value')]: the attribute of the first match. *)
Definition csrf_token_of (loginHtml : document) : option jsstring :=
  head (select is_token_input loginHtml) ≫= value_attr.

(** [$$('table#grades tr')] *)
Definition grades_rows (gradesHtml : document) : list node :=
  select_below is_grades_table is_tr gradesHtml.

(** The callback of [each], lines 205-212: [grades.push] when the row has a
    [td]; [tds[k]] is [undefined] beyond the last cell. *)
Definition scrape_row (grades : list grade_record) (row : node)
  : list grade_record :=
  let tds := find is_td row in
  match length tds with
  | O => grades
  | _ =>
    grades ++ [ {| course := trim (text (tds !! 0%nat));
                   grade := trim (text (tds !! 1%nat));
                   semester := trim (text (tds !! 2%nat)) |} ]
  end.

(** Lines 202-213: the rows are visited in document order. *)
Definition scrape (gradesHtml : document) : list grade_record :=
  fold_left scrape_row (grades_rows gradesHtml) [].

Section WithPortal.

(** The portal answers a request with a response, or the transport fails. *)
Variable portal : request -> option response.

(** [await fetch(...)]: the request goes on the wire; a transport failure
    rejects. *)
Definition fetch (req : request) : M (list request) response :=
  fun wire =>
    match portal req with
    | Some resp => (Return resp, wire ++ [req])
    | None => (Throw FetchError, wire ++ [req])
    end.

Definition fetchGradesFromPortal (username password : jsstring)
  : M (list request) (list grade_record) :=
  loginPage <- fetch login_page_request ;;
  let loginHtml := markup loginPage in
  let csrfToken := csrf_token_of loginHtml in
  loginResp <- fetch (login_request username password (or_empty csrfToken)) ;;
  let cookies := set_cookie loginResp in
  if negb (truthy cookies) then throw LoginFailed
  else
    gradesPage <- fetch (grades_request cookies) ;;
    let gradesHtml := markup gradesPage in
    ret (scrape gradesHtml).

End WithPortal.

End Portal.
Import Portal.

(** ** The bot: storage, messages and handlers *)

Module Bot.

(** An entry of [users]: [portalUsername] and [portalPassword] are [null]
    ([None]) or a string. *)
Record profile := Profile {
  telegramId : Z;
  firstName : jsstring;
  portalUsername : option jsstring;
  portalPassword : option jsstring
}.

(** [user.portalUsername = v] and [user.portalPassword = v] *)
Definition set_portalUsername (v : jsstring) (u : profile) : profile :=
  {| telegramId := telegramId u; firstName := firstName u;
     portalUsername := Some v; portalPassword := portalPassword u |}.
Definition set_portalPassword (v : jsstring) (u : profile) : profile :=
  {| telegramId := telegramId u; firstName := firstName u;
     portalUsername := portalUsername u; portalPassword := Some v |}.

(** The [state] field of an entry of [userStates]; no entry is the stage the
    specification calls NONE. *)
Inductive stage := awaiting_username | awaiting_password.

(** The part of a Telegram message the handlers read: [msg.chat.id],
    [msg.from.id], [msg.from.first_name] and [msg.text].  The inbound event
    is a text message, [msg.text] is a string; a message without text, on
    which [text.trim()] throws while a stage is open, is not covered. *)
Record message := Message {
  chat_id : Z;
  from_id : Z;
  first_name : jsstring;
  text_of : jsstring
}.

Record reply_markup := ReplyMarkup {
  keyboard : list (list jsstring);
  resize_keyboard : bool
}.

(** One call of [bot.sendMessage(chatId, text, options)]. *)
Record sent := Sent {
  to : Z;
  content : jsstring;
  parse_mode : option jsstring;
  markup_of : option reply_markup
}.

(** The two maps of the module, the messages sent so far and the requests
    made to the portal so far. *)
Record world := World {
  users : gmap Z profile;
  userStates : gmap Z stage;
  outbox : list sent;
  wire : list request
}.

Definition initial : world :=
  {| users := ∅; userStates := ∅; outbox := []; wire := [] |}.

Definition with_users (f : gmap Z profile -> gmap Z profile) (w : world) :=
  {| users := f (users w); userStates := userStates w;
     outbox := outbox w; wire := wire w |}.
Definition with_userStates (f : gmap Z stage -> gmap Z stage) (w : world) :=
  {| users := users w; userStates := f (userStates w);
     outbox := outbox w; wire := wire w |}.
Definition with_outbox (f : list sent -> list sent) (w : world) :=
  {| users := users w; userStates := userStates w;
     outbox := f (outbox w); wire := wire w |}.
Definition with_wire (f : list request -> list request) (w : world) :=
  {| users := users w; userStates := userStates w;
     outbox := outbox w; wire := f (wire w) |}.

(** Texts of the module, as the source writes them. *)
Definition show_grades_label : jsstring := js "📊 Show Grades".
Definition help_label : jsstring := js "ℹ️ Help".

Definition menu_text : jsstring :=
  js "🎓 *Jimma University Grade Viewer*" ++ LF ++ LF
  ++ js "Welcome! Choose an option below:".
Definition welcome_text : jsstring :=
  js "🎓 Welcome to JU Grade Viewer Bot!" ++ LF ++ LF
  ++ js "Click " ++ DQUOTE ++ js "📊 Show Grades" ++ DQUOTE
  ++ js " to check your grades securely.".
Definition help_text : jsstring :=
  js "ℹ️ *Help*" ++ LF ++ LF
  ++ js "• Click " ++ DQUOTE ++ js "📊 Show Grades" ++ DQUOTE
  ++ js " to view your grades" ++ LF
  ++ js "• Enter your JU portal username and password when prompted" ++ LF
  ++ js "• Contact admin if you have login issues".
Definition ask_username_text : jsstring :=
  js "📌 Please enter your JU portal *username*:".
Definition ask_password_text : jsstring :=
  js "📌 Now enter your JU portal *password*:".
Definition no_grades_text : jsstring :=
  js "⚠️ No grades found for your account.".
Definition failed_text : jsstring :=
  js "❌ Failed to fetch grades. Check your credentials or try later.".
Definition username_saved_text : jsstring :=
  js "✅ Username saved! Now enter your *password*:".
Definition password_saved_text : jsstring :=
  js "✅ Password saved! Fetching your grades...".

(** Lines 109-112: the header, then one line per record. *)
Definition grade_line (g : grade_record) : jsstring :=
  js "• " ++ course g ++ js " | " ++ grade g ++ js " | " ++ semester g ++ LF.
Definition grades_text (grades : list grade_record) : jsstring :=
  fold_left (fun message g => message ++ grade_line g) grades
    (js "📊 *Your Grades*" ++ LF ++ LF).

Definition plain : option jsstring := None.
Definition Markdown : option jsstring := Some (js "Markdown").

Definition users_get (userId : Z) : M world (option profile) :=
  gets (fun w => users w !! userId).
Definition users_set (userId : Z) (u : profile) : M world unit :=
  modify (with_users <[userId := u]>).
Definition userStates_get (userId : Z) : M world (option stage) :=
  gets (fun w => userStates w !! userId).
Definition userStates_set (userId : Z) (s : stage) : M world unit :=
  modify (with_userStates <[userId := s]>).
Definition userStates_delete (userId : Z) : M world unit :=
  modify (with_userStates (delete userId)).

(** A property access or assignment on the result of [users.get]: it throws
    a [TypeError] on [undefined]. *)
Definition member {S} (user : option profile) : M S profile :=
  match user with
  | Some u => ret u
  | None => throw TypeError
  end.

(** [await bot.sendMessage(...)]; delivery is the transport's business and
    is taken to succeed: a send that the transport rejects, and what the
    handlers do after it, is not covered. *)
Definition sendMessage (chatId : Z) (txt : jsstring)
  (mode : option jsstring) (kb : option reply_markup) : M world unit :=
  modify (with_outbox (fun o =>
    o ++ [ {| to := chatId; content := txt; parse_mode := mode;
              markup_of := kb |} ])).

(** A computation on the wire, run from the handlers. *)
Definition on_wire {A} (m : M (list request) A) : M world A :=
  fun w =>
    let '(r, log) := m [] in
    (r, with_wire (fun l => l ++ log) w).

Definition showMainMenu (chatId : Z) : M world unit :=
  let options :=
    {| keyboard := [ [ show_grades_label; help_label ] ];
       resize_keyboard := true |} in
  sendMessage chatId menu_text Markdown (Some options).

(** Lines 49-56 of [handleStart], the operation the specification calls
    [ensure]: a profile is created only when the identifier has none. *)
Definition ensure (userId : Z) (displayName : jsstring)
  (us : gmap Z profile) : gmap Z profile :=
  match us !! userId with
  | Some _ => us
  | None =>
    <[userId := {| telegramId := userId; firstName := displayName;
                   portalUsername := None; portalPassword := None |}]> us
  end.

Definition handleStart (msg : message) : M world unit :=
  let chatId := chat_id msg in
  let userId := from_id msg in
  modify (with_users (ensure userId (first_name msg))) ;;
  sendMessage chatId welcome_text plain None ;;
  showMainMenu chatId.

Definition handleHelp (msg : message) : M world unit :=
  sendMessage (chat_id msg) help_text Markdown None.

Section WithPortal.

Variable portal : request -> option response.

(** [console.error(err)] in the handler of line 116 is not modelled. *)
Definition handleGrades (msg : message) : M world unit :=
  let chatId := chat_id msg in
  let userId := from_id msg in
  user <- users_get userId ;;
  u <- member user ;;
  if negb (truthy (portalUsername u)) then
    userStates_set userId awaiting_username ;;
    sendMessage chatId ask_username_text Markdown None
  else if negb (truthy (portalPassword u)) then
    userStates_set userId awaiting_password ;;
    sendMessage chatId ask_password_text Markdown None
  else
    try_catch
      (grades <- on_wire (fetchGradesFromPortal portal
                            (default [] (portalUsername u))
                            (default [] (portalPassword u))) ;;
       match length grades with
       | O => sendMessage chatId no_grades_text plain None
       | _ => sendMessage chatId (grades_text grades) Markdown None
       end)
      (fun err => sendMessage chatId failed_text plain None).

Definition handleMessage (msg : message) : M world unit :=
  let chatId := chat_id msg in
  let userId := from_id msg in
  let text := text_of msg in
  state <- userStates_get userId ;;
  match state with
  | Some awaiting_username =>
    user <- users_get userId ;;
    u <- member user ;;
    users_set userId (set_portalUsername (trim text) u) ;;
    userStates_set userId awaiting_password ;;
    sendMessage chatId username_saved_text Markdown None
  | Some awaiting_password =>
    user <- users_get userId ;;
    u <- member user ;;
    users_set userId (set_portalPassword (trim text) u) ;;
    userStates_delete userId ;;
    sendMessage chatId password_saved_text plain None ;;
    handleGrades msg
  | None =>
    if str_eqb text (js "/start") then handleStart msg
    else if str_eqb text (js "/help") || str_eqb text help_label
    then handleHelp msg
    else if str_eqb text show_grades_label then handleGrades msg
    else showMainMenu chatId
  end.

(** The serverless entry point, by request method; a POST carries an update
    whose [message] may be missing, or has no body at all, in which case
    [update.message] throws inside the [try].  The CORS headers are left
    out. *)
Inductive verb := OPTIONS | GET_status | POST_update (update : option message)
                | POST_without_body | other_verb.

Inductive reply :=
| Ended                       (* 200, empty *)
| Online (users_size : nat)   (* 200, status online *)
| Acknowledged                (* 200, ok *)
| ServerError                 (* 500 *)
| NotAllowed.                 (* 405 *)

Definition status (r : reply) : Z :=
  match r with
  | Ended | Online _ | Acknowledged => 200
  | ServerError => 500
  | NotAllowed => 405
  end.

Definition handler (req : verb) : world -> reply * world :=
  fun w =>
    match req with
    | OPTIONS => (Ended, w)
    | GET_status => (Online (size (users w)), w)
    | POST_update update =>
      match (match update with
             | Some msg => handleMessage msg
             | None => ret tt
             end) w with
      | (Return _, w') => (Acknowledged, w')
      | (Throw _, w') => (ServerError, w')
      end
    | POST_without_body => (ServerError, w)
    | other_verb => (NotAllowed, w)
    end.

End WithPortal.

(** The message of lines 104-118 for an outcome of the fetch. *)
Definition report (chatId : Z) (r : outcome (list grade_record)) : sent :=
  match r with
  | Return [] =>
    {| to := chatId; content := no_grades_text; parse_mode := plain;
       markup_of := None |}
  | Return grades =>
    {| to := chatId; content := grades_text grades; parse_mode := Markdown;
       markup_of := None |}
  | Throw _ =>
    {| to := chatId; content := failed_text; parse_mode := plain;
       markup_of := None |}
  end.

(** The worlds the entry point can produce from the initial one, whatever
    the portal does at each request. *)
Inductive reachable : world -> Prop :=
| reachable_initial : reachable initial
| reachable_step (portal : request -> option response) (req : verb)
    (w : world) :
    reachable w -> reachable (snd (handler portal req w)).

(** Every user with an open stage has a profile. *)
Definition stage_has_profile (w : world) : Prop :=
  forall userId : Z,
    is_Some (userStates w !! userId) -> is_Some (users w !! userId).

(** The stage of a user; [None] is NONE. *)
Definition stage_of (userId : Z) (w : world) : option stage :=
  userStates w !! userId.

(** The messages of the transition table's actions: the prompt for the
    username (line 90) and the prompts for the password (lines 96, 138). *)
Definition is_username_prompt (m : sent) : bool :=
  str_eqb (content m) ask_username_text.
Definition is_password_prompt (m : sent) : bool :=
  str_eqb (content m) ask_password_text
  || str_eqb (content m) username_saved_text.

(** How many of the messages [l] are prompts of the kind [p]. *)
Definition prompts (p : sent -> bool) (l : list sent) : nat :=
  length (List.filter p l).

Section Dialogue.

(** The portal may behave differently at each of the three messages. *)
Variables p1 p2 p3 : request -> option response.

(** What the specification says of the grade request [m1] of a fresh user
    followed by the two texts [m2] and [m3]: the stages after each message,
    and the prompts among the messages sent meanwhile. *)
Definition dialogue_as_specified (w0 : world) (m1 m2 m3 : message) : Prop :=
  let userId := from_id m1 in
  let w1 := exec (handleMessage p1 m1) w0 in
  let w2 := exec (handleMessage p2 m2) w1 in
  let w3 := exec (handleMessage p3 m3) w2 in
  stage_of userId w0 = None
  /\ stage_of userId w1 = Some awaiting_username
  /\ stage_of userId w2 = Some awaiting_password
  /\ stage_of userId w3 = None
  /\ exists new : list sent,
       outbox w3 = outbox w0 ++ new
       /\ prompts is_username_prompt new = 1%nat
       /\ prompts is_password_prompt new = 1%nat.

End Dialogue.

End Bot.
Import Bot.

Arguments js : simpl never.
Arguments str_eqb : simpl never.

(** ** The scraper's result, in the words of the specification *)

Module GradesSpec.

(** A row has at least one data cell. *)
Definition has_data_cell (row : node) : bool :=
  negb (Nat.eqb (length (find is_td row)) 0).

(** The text of the [k]-th data cell of a row, trimmed; empty when the row
    has no such cell. *)
Definition cell_text (row : node) (k : nat) : jsstring :=
  trim (text (find is_td row !! k)).

(** The record of a row: its first three positional columns. *)
Definition row_record (row : node) : grade_record :=
  {| course := cell_text row 0; grade := cell_text row 1;
     semester := cell_text row 2 |}.

(** One record per row with a data cell, in the order of the rows. *)
Definition records_of_rows (rows : list node) : list grade_record :=
  List.map row_record (List.filter has_data_cell rows).

End GradesSpec.
Import GradesSpec.

(** ** Sample pages, portals and messages *)

Module Samples.

Definition el (tag : string) (cs : list node) : node := Element (js tag) [] cs.
Definition td (s : string) : node := el "td" [Text (js s)].

(** A grades table with a row of three cells and a row without data cells. *)
Definition grades_page : document :=
  [ el "html" [ el "body" [
      Element (js "table") [(js "id", js "grades")] [
        el "tbody" [
          el "tr" [ td " CS101"; td "A "; td "Sem1" ];
          el "tr" [ el "th" [Text []]; el "th" [Text []]; el "th" [Text []] ]
        ] ] ] ] ].

(** Rows with one and with two cells. *)
Definition short_rows_page : document :=
  [ Element (js "table") [(js "id", js "grades")] [
      el "tr" [ td "CS101" ];
      el "tr" [ td "CS102"; td "B" ] ] ].

(** A page without the grades table. *)
Definition no_table_page : document :=
  [ el "html" [ el "body" [
      Element (js "table") [(js "id", js "courses")] [ el "tr" [ td "x" ] ];
      el "p" [ Text (js "Welcome") ] ] ] ].

Definition login_page (token : string) : document :=
  [ el "form" [
      Element (js "input")
        [ (js "type", js "hidden");
          (js "name", js "__RequestVerificationToken");
          (js "value", js token) ] [] ] ].


(** A portal that serves [loginHtml], answers every login with [cookies] and
    serves [gradesHtml]. *)
Definition portal_serving (loginHtml : document) (cookies : option jsstring)
  (gradesHtml : document) : request -> option response :=
  fun req =>
    if str_eqb (url req) (url login_page_request)
    then Some {| set_cookie := None; markup := loginHtml |}
    else if str_eqb (url req) (url (login_request [] [] []))
    then Some {| set_cookie := cookies; markup := [] |}
    else Some {| set_cookie := None; markup := gradesHtml |}.

(** A portal that cannot be reached. *)
Definition unreachable : request -> option response := fun _ => None.

Definition campus : request -> option response :=
  portal_serving (login_page "T") (Some (js "sid=1")) grades_page.

(** A world where user 7 has stored the credentials alice and secret, and
    one where user 7 is fresh. *)
Definition with_credentials : world :=
  {| users := {[ 7%Z := {| telegramId := 7; firstName := js "Abebe";
                           portalUsername := Some (js "alice");
                           portalPassword := Some (js "secret") |} ]};
     userStates := ∅; outbox := []; wire := [] |}.

Definition fresh_user : world :=
  {| users := {[ 7%Z := {| telegramId := 7; firstName := js "Abebe";
                           portalUsername := None;
                           portalPassword := None |} ]};
     userStates := ∅; outbox := []; wire := [] |}.

Definition text_from (userId : Z) (t : jsstring) : message :=
  {| chat_id := userId; from_id := userId; first_name := js "Abebe";
     text_of := t |}.

End Samples.

(** ** Notions used by the further properties *)

Module Notions.

(** The first code unit of a string is white space. *)
Definition starts_with_space (s : jsstring) : bool :=
  match s with
  | c :: _ => is_white_space c
  | [] => false
  end.

(** A string that neither starts nor ends with white space. *)
Definition no_outer_space (s : jsstring) : bool :=
  negb (starts_with_space s) && negb (starts_with_space (rev s)).

(** A string of white space only. *)
Definition all_space (s : jsstring) : bool := forallb is_white_space s.

(** The last message sent. *)
Definition last_sent (w : world) : option sent := last (outbox w).

(** The three requests of a handshake that goes through, for the login page
    [loginPage] and the login response [loginResp]. *)
Definition handshake (username password : jsstring)
  (loginPage loginResp : response) : list request :=
  [ login_page_request;
    login_request username password
      (or_empty (csrf_token_of (markup loginPage)));
    grades_request (set_cookie loginResp) ].

(** A reply of the command dispatch that is not a grade request: the
    welcome, the help or the main menu. *)
Definition is_menu_reply (m : sent) : bool :=
  str_eqb (content m) welcome_text
  || str_eqb (content m) help_text
  || str_eqb (content m) menu_text.

(** The messages of the handlers, by their text. *)
Definition say (chatId : Z) (txt : jsstring) (mode : option jsstring) : sent :=
  {| to := chatId; content := txt; parse_mode := mode; markup_of := None |}.

(** The message of [showMainMenu]. *)
Definition menu_message (chatId : Z) : sent :=
  {| to := chatId; content := menu_text; parse_mode := Markdown;
     markup_of := Some {| keyboard := [ [ show_grades_label; help_label ] ];
                          resize_keyboard := true |} |}.

(** The worlds that follow [w] after some requests to the entry point,
    whatever the portal does at each. *)
Inductive follows (w : world) : world -> Prop :=
| follows_now : follows w w
| follows_step (portal : request -> option response) (req : verb)
    (w' : world) :
    follows w w' -> follows w (snd (handler portal req w')).

(** What an update may do to a profile: it stays, with its name, and a
    stored credential stays stored. *)
Definition kept (u u' : profile) : Prop :=
  telegramId u' = telegramId u
  /\ firstName u' = firstName u
  /\ (is_Some (portalUsername u) -> is_Some (portalUsername u'))
  /\ (is_Some (portalPassword u) -> is_Some (portalPassword u')).

(** A new user sends the start command while no stage is open. *)
Definition registers (msg : message) (w : world) : bool :=
  bool_decide (userStates w !! from_id msg = None)
  && str_eqb (text_of msg) (js "/start")
  && bool_decide (users w !! from_id msg = None).

End Notions.
Import Notions.

(** * Properties *)

Example js_ascii : js "/help" = [47; 104; 101; 108; 112].
Proof. reflexivity. Qed.

Example js_surrogates : js "📊" = [0xD83D; 0xDCCA].
Proof. reflexivity. Qed.

Example js_info : js "ℹ️ Help" = [0x2139; 0xFE0F; 32; 72; 101; 108; 112].
Proof. reflexivity. Qed.

Example trim_example : trim (js "  CS101 " ++ LF) = js "CS101".
Proof. reflexivity. Qed.

(** Induction on trees, with the hypothesis on every child. *)
Lemma node_ind' (P : node -> Prop) :
  (forall d, P (Text d)) ->
  (forall nm atts cs, Forall P cs -> P (Element nm atts cs)) ->
  forall n, P n.
Proof.
  intros HT HE.
  fix IH 1. intros [d | nm atts cs].
  - apply HT.
  - apply HE. induction cs as [| c cs IHcs]; constructor.
    + apply IH.
    + apply IHcs.
Qed.


(** ** Selectors *)

Section Selectors.

Variables a b : node -> bool.

Lemma flat_map_all_nil {A B} (f : A -> list B) (l : list A) :
  Forall (fun x => f x = []) l -> flat_map f l = [].
Proof.
  induction 1 as [| x l Hx _ IH]; simpl; [reflexivity |].
  now rewrite Hx, IH.
Qed.

(** Where [a] occurs in no tree of [l], a property that holds of each tree
    without [a] holds of all of [l]. *)
Lemma Forall_absent (P : node -> Prop) (l : list node) :
  Forall (fun n => occurs a n = false -> P n) l ->
  existsb (occurs a) l = false -> Forall P l.
Proof.
  induction 1 as [| n l Hn _ IH]; intros H; constructor;
    cbn [existsb] in H; apply orb_false_elim in H as [Hn' Hl].
  - now apply Hn.
  - now apply IH.
Qed.

(** Nothing is selected below [a] in a tree where [a] does not occur. *)
Lemma matching_below_absent n :
  occurs a n = false -> matching_below a b false n = [].
Proof.
  induction n as [d | nm atts cs IH] using node_ind'; [reflexivity |].
  cbn [occurs matching_below]. intros H.
  apply orb_false_elim in H as [Ha Hcs]. rewrite Ha. cbn.
  apply flat_map_all_nil. now apply Forall_absent.
Qed.

Lemma select_below_absent doc :
  occurs_in a doc = false -> select_below a b doc = [].
Proof.
  unfold occurs_in, select_below. intros H. apply flat_map_all_nil.
  induction doc as [| n doc IH]; constructor;
    cbn [existsb] in H; apply orb_false_elim in H as [Hn Hdoc].
  - now apply matching_below_absent.
  - now apply IH.
Qed.



End Selectors.

(** ** The scraping loop *)

(** The loop of lines 204-213 appends, to what it has, the records of the
    rows with a data cell. *)
Lemma fold_scrape_row rows : forall acc,
  fold_left scrape_row rows acc = acc ++ records_of_rows rows.
Proof.
  unfold records_of_rows.
  induction rows as [| row rows IH]; intros acc; cbn [fold_left].
  - cbn. now rewrite app_nil_r.
  - rewrite IH. cbn [List.filter]. unfold scrape_row at 1, has_data_cell at 2.
    destruct (length (find is_td row)) eqn:Hlen; cbn.
    + reflexivity.
    + now rewrite <- app_assoc.
Qed.

Lemma scrape_records doc : scrape doc = records_of_rows (grades_rows doc).
Proof. unfold scrape. now rewrite fold_scrape_row. Qed.

(** ** The handshake *)

Section Handshake.

Variable portal : request -> option response.
Variables username password : jsstring.

(** The login page cannot be fetched. *)
Lemma fetchGrades_login_page_down :
  portal login_page_request = None ->
  fetchGradesFromPortal portal username password []
  = (Throw FetchError, [login_page_request]).
Proof.
  intros H. unfold fetchGradesFromPortal, bind, fetch. now rewrite H.
Qed.

(** The login request cannot be made. *)
Lemma fetchGrades_login_down loginPage :
  portal login_page_request = Some loginPage ->
  portal (login_request username password
            (or_empty (csrf_token_of (markup loginPage)))) = None ->
  fetchGradesFromPortal portal username password []
  = (Throw FetchError,
     [login_page_request;
      login_request username password
        (or_empty (csrf_token_of (markup loginPage)))]).
Proof.
  intros H1 H2. unfold fetchGradesFromPortal, bind, fetch.
  rewrite H1. cbn. now rewrite H2.
Qed.

(** The login response has no usable cookie. *)
Lemma fetchGrades_no_cookie loginPage loginResp :
  portal login_page_request = Some loginPage ->
  portal (login_request username password
            (or_empty (csrf_token_of (markup loginPage)))) = Some loginResp ->
  truthy (set_cookie loginResp) = false ->
  fetchGradesFromPortal portal username password []
  = (Throw LoginFailed,
     [login_page_request;
      login_request username password
        (or_empty (csrf_token_of (markup loginPage)))]).
Proof.
  intros H1 H2 H3. unfold fetchGradesFromPortal, bind, fetch.
  rewrite H1. cbn. rewrite H2. cbn. now rewrite H3.
Qed.

(** The whole handshake succeeds. *)
Lemma fetchGrades_scrapes loginPage loginResp gradesPage :
  portal login_page_request = Some loginPage ->
  portal (login_request username password
            (or_empty (csrf_token_of (markup loginPage)))) = Some loginResp ->
  truthy (set_cookie loginResp) = true ->
  portal (grades_request (set_cookie loginResp)) = Some gradesPage ->
  fetchGradesFromPortal portal username password []
  = (Return (scrape (markup gradesPage)),
     [login_page_request;
      login_request username password
        (or_empty (csrf_token_of (markup loginPage)));
      grades_request (set_cookie loginResp)]).
Proof.
  intros H1 H2 H3 H4. unfold fetchGradesFromPortal, bind, fetch.
  rewrite H1. cbn. rewrite H2. cbn. rewrite H3. cbn. now rewrite H4.
Qed.

End Handshake.

(** ** Claims on [fetchGradesFromPortal] *)

Lemma login_page_url_differs :
  url login_page_request <> url (grades_request None).
Proof. vm_compute. discriminate. Qed.

Lemma login_url_differs (username password token : jsstring) :
  url (login_request username password token) <> url (grades_request None).
Proof. vm_compute. discriminate. Qed.

(** C2: when the login response carries no Set-Cookie header, the call fails
    with the login failure of line 193, which is not the transport failure,
    and no request for the grades page is on the wire. *)
Theorem fetchGrades_no_set_cookie
  (portal : request -> option response) (username password : jsstring)
  (loginPage loginResp : response) :
  portal login_page_request = Some loginPage ->
  portal (login_request username password
            (or_empty (csrf_token_of (markup loginPage)))) = Some loginResp ->
  set_cookie loginResp = None ->
  eval (fetchGradesFromPortal portal username password) [] = Throw LoginFailed
  /\ eval (fetchGradesFromPortal portal username password) []
     <> Throw FetchError
  /\ forall req : request,
       In req (exec (fetchGradesFromPortal portal username password) []) ->
       url req <> url (grades_request None).
Proof.
  intros H1 H2 H3. unfold eval, exec.
  rewrite (fetchGrades_no_cookie _ _ _ _ _ H1 H2) by now rewrite H3.
  cbn [fst snd]. split; [reflexivity |]. split; [discriminate |].
  intros req [<- | [<- | []]].
  - exact login_page_url_differs.
  - exact (login_url_differs _ _ _).
Qed.

Lemma fetchGrades_no_set_cookie_witness :
  let portal := Samples.portal_serving (Samples.login_page "T") None
                  Samples.grades_page in
  eval (fetchGradesFromPortal portal (js "alice") (js "secret")) []
  = Throw LoginFailed.
Proof.
  intros portal.
  apply (fetchGrades_no_set_cookie portal (js "alice") (js "secret")
           {| set_cookie := None; markup := Samples.login_page "T" |}
           {| set_cookie := None; markup := [] |});
    vm_compute; reflexivity.
Defined.



(** C6: once the handshake has gone through, the call returns one record per
    row of the grades table that has a data cell, in the order of the rows;
    a row with three cells or more gives the trimmed texts of its first
    three cells; a row without a data cell gives nothing.  On the sample page
    (a row CS101, A, Sem1 and a row without data cells) the result is the
    one record of the first row. *)
Theorem fetchGrades_one_record_per_data_row
  (portal : request -> option response) (username password : jsstring)
  (loginPage loginResp gradesPage : response) :
  portal login_page_request = Some loginPage ->
  portal (login_request username password
            (or_empty (csrf_token_of (markup loginPage)))) = Some loginResp ->
  truthy (set_cookie loginResp) = true ->
  portal (grades_request (set_cookie loginResp)) = Some gradesPage ->
  eval (fetchGradesFromPortal portal username password) []
  = Return (List.map row_record
              (List.filter has_data_cell (grades_rows (markup gradesPage))))
  /\ (forall (row c0 c1 c2 : node) (more : list node),
        find is_td row = c0 :: c1 :: c2 :: more ->
        has_data_cell row = true
        /\ row_record row
           = {| course := trim (textContent c0);
                grade := trim (textContent c1);
                semester := trim (textContent c2) |})
  /\ (forall row : node, find is_td row = [] -> has_data_cell row = false)
  /\ scrape Samples.grades_page
     = [ {| course := js "CS101"; grade := js "A"; semester := js "Sem1" |} ].
Proof.
  intros H1 H2 H3 H4. unfold eval.
  rewrite (fetchGrades_scrapes _ _ _ _ _ _ H1 H2 H3 H4). cbn [fst].
  rewrite scrape_records. split; [reflexivity |].
  split; [| split].
  - intros row c0 c1 c2 more H. split.
    + unfold has_data_cell. now rewrite H.
    + unfold row_record, cell_text. now rewrite H.
  - intros row H. unfold has_data_cell. now rewrite H.
  - vm_compute. reflexivity.
Qed.

Lemma fetchGrades_one_record_per_data_row_witness :
  eval (fetchGradesFromPortal Samples.campus (js "alice") (js "secret")) []
  = Return [ {| course := js "CS101"; grade := js "A";
                semester := js "Sem1" |} ].
Proof.
  transitivity
    (Return (List.map row_record
               (List.filter has_data_cell (grades_rows Samples.grades_page))));
    [| vm_compute; reflexivity].
  apply (fetchGrades_one_record_per_data_row Samples.campus
           (js "alice") (js "secret")
           {| set_cookie := None; markup := Samples.login_page "T" |}
           {| set_cookie := Some (js "sid=1"); markup := [] |}
           {| set_cookie := None; markup := Samples.grades_page |});
    vm_compute; reflexivity.
Defined.

(** C10: once the handshake has gone through, a row of the grades table with
    exactly one or two data cells still gives a record in the result, its
    missing grade and semester being empty strings. *)
Theorem fetchGrades_short_rows
  (portal : request -> option response) (username password : jsstring)
  (loginPage loginResp gradesPage : response) (row : node) :
  portal login_page_request = Some loginPage ->
  portal (login_request username password
            (or_empty (csrf_token_of (markup loginPage)))) = Some loginResp ->
  truthy (set_cookie loginResp) = true ->
  portal (grades_request (set_cookie loginResp)) = Some gradesPage ->
  In row (grades_rows (markup gradesPage)) ->
  exists grades : list grade_record,
    eval (fetchGradesFromPortal portal username password) [] = Return grades
    /\ (forall c0 : node,
          find is_td row = [c0] ->
          In {| course := trim (textContent c0); grade := [];
                semester := [] |} grades)
    /\ (forall c0 c1 : node,
          find is_td row = [c0; c1] ->
          In {| course := trim (textContent c0);
                grade := trim (textContent c1); semester := [] |} grades).
Proof.
  intros H1 H2 H3 H4 Hrow. eexists. unfold eval.
  rewrite (fetchGrades_scrapes _ _ _ _ _ _ H1 H2 H3 H4). cbn [fst].
  rewrite scrape_records. split; [reflexivity |].
  assert (Hin : has_data_cell row = true ->
                In (row_record row)
                   (records_of_rows (grades_rows (markup gradesPage)))).
  { intros Hcell. unfold records_of_rows. apply in_map.
    apply filter_In. now split. }
  split.
  - intros c0 Hc.
    replace {| course := trim (textContent c0); grade := []; semester := [] |}
      with (row_record row).
    + apply Hin. unfold has_data_cell. now rewrite Hc.
    + unfold row_record, cell_text. now rewrite Hc.
  - intros c0 c1 Hc.
    replace {| course := trim (textContent c0);
               grade := trim (textContent c1); semester := [] |}
      with (row_record row).
    + apply Hin. unfold has_data_cell. now rewrite Hc.
    + unfold row_record, cell_text. now rewrite Hc.
Qed.

Lemma fetchGrades_short_rows_witness :
  exists grades : list grade_record,
    eval (fetchGradesFromPortal
            (Samples.portal_serving (Samples.login_page "T")
               (Some (js "sid=1")) Samples.short_rows_page)
            (js "alice") (js "secret")) [] = Return grades
    /\ In {| course := js "CS101"; grade := []; semester := [] |} grades.
Proof.
  destruct (fetchGrades_short_rows
              (Samples.portal_serving (Samples.login_page "T")
                 (Some (js "sid=1")) Samples.short_rows_page)
              (js "alice") (js "secret")
              {| set_cookie := None; markup := Samples.login_page "T" |}
              {| set_cookie := Some (js "sid=1"); markup := [] |}
              {| set_cookie := None; markup := Samples.short_rows_page |}
              (Samples.el "tr" [Samples.td "CS101"]))
    as (grades & Hret & Hone & _).
  - vm_compute. reflexivity.
  - vm_compute. reflexivity.
  - vm_compute. reflexivity.
  - vm_compute. reflexivity.
  - vm_compute. left. reflexivity.
  - exists grades. split; [exact Hret |].
    apply (Hone (Samples.td "CS101")). vm_compute. reflexivity.
Defined.

(** ** Steps of the handlers *)

Ltac run_handler :=
  unfold bind, users_get, users_set, userStates_get, userStates_set,
    userStates_delete, sendMessage, gets, modify, member, ret, throw,
    with_users, with_userStates, with_outbox, with_wire; cbn.

Section Steps.

Variable portal : request -> option response.

(** The sender has no profile: the access to [user.portalUsername] throws. *)
Lemma handleGrades_unknown_user msg w :
  users w !! from_id msg = None ->
  handleGrades portal msg w = (Throw TypeError, w).
Proof. intros H. unfold handleGrades. run_handler. now rewrite H. Qed.

Lemma handleGrades_asks_username msg w u :
  users w !! from_id msg = Some u ->
  truthy (portalUsername u) = false ->
  handleGrades portal msg w
  = (Return tt,
     {| users := users w;
        userStates := <[from_id msg := awaiting_username]> (userStates w);
        outbox := outbox w ++ [ {| to := chat_id msg;
                                   content := ask_username_text;
                                   parse_mode := Markdown;
                                   markup_of := None |} ];
        wire := wire w |}).
Proof.
  intros Hu Hn. unfold handleGrades. run_handler. rewrite Hu. cbn.
  now rewrite Hn.
Qed.

Lemma handleGrades_asks_password msg w u :
  users w !! from_id msg = Some u ->
  truthy (portalUsername u) = true ->
  truthy (portalPassword u) = false ->
  handleGrades portal msg w
  = (Return tt,
     {| users := users w;
        userStates := <[from_id msg := awaiting_password]> (userStates w);
        outbox := outbox w ++ [ {| to := chat_id msg;
                                   content := ask_password_text;
                                   parse_mode := Markdown;
                                   markup_of := None |} ];
        wire := wire w |}).
Proof.
  intros Hu Hn Hp. unfold handleGrades. run_handler. rewrite Hu. cbn.
  now rewrite Hn, Hp.
Qed.

(** Both credentials are stored: the portal is asked, and the outcome is
    reported; neither map changes. *)
Lemma handleGrades_fetches msg w u :
  users w !! from_id msg = Some u ->
  truthy (portalUsername u) = true ->
  truthy (portalPassword u) = true ->
  let attempt :=
    fetchGradesFromPortal portal (default [] (portalUsername u))
      (default [] (portalPassword u)) [] in
  handleGrades portal msg w
  = (Return tt,
     {| users := users w;
        userStates := userStates w;
        outbox := outbox w ++ [report (chat_id msg) (fst attempt)];
        wire := wire w ++ snd attempt |}).
Proof.
  intros Hu Hn Hp attempt. unfold handleGrades. run_handler. rewrite Hu. cbn.
  rewrite Hn, Hp. cbn. unfold try_catch, on_wire. run_handler.
  fold attempt. destruct attempt as [[[| g grades] | e] log]; reflexivity.
Qed.

Lemma handleMessage_awaiting_username msg w u :
  userStates w !! from_id msg = Some awaiting_username ->
  users w !! from_id msg = Some u ->
  handleMessage portal msg w
  = (Return tt,
     {| users := <[from_id msg := set_portalUsername (trim (text_of msg)) u]>
                   (users w);
        userStates := <[from_id msg := awaiting_password]> (userStates w);
        outbox := outbox w ++ [ {| to := chat_id msg;
                                   content := username_saved_text;
                                   parse_mode := Markdown;
                                   markup_of := None |} ];
        wire := wire w |}).
Proof.
  intros Hs Hu. unfold handleMessage. run_handler. rewrite Hs. cbn.
  now rewrite Hu.
Qed.

Lemma handleMessage_awaiting_password msg w u :
  userStates w !! from_id msg = Some awaiting_password ->
  users w !! from_id msg = Some u ->
  handleMessage portal msg w
  = handleGrades portal msg
      {| users := <[from_id msg := set_portalPassword (trim (text_of msg)) u]>
                    (users w);
         userStates := delete (from_id msg) (userStates w);
         outbox := outbox w ++ [ {| to := chat_id msg;
                                    content := password_saved_text;
                                    parse_mode := plain;
                                    markup_of := None |} ];
         wire := wire w |}.
Proof.
  intros Hs Hu. unfold handleMessage. run_handler. rewrite Hs. cbn.
  now rewrite Hu.
Qed.

(** No stage is open: the text is dispatched. *)
Lemma handleMessage_idle msg w :
  userStates w !! from_id msg = None ->
  handleMessage portal msg w
  = (if str_eqb (text_of msg) (js "/start") then handleStart msg
     else if str_eqb (text_of msg) (js "/help")
             || str_eqb (text_of msg) help_label
     then handleHelp msg
     else if str_eqb (text_of msg) show_grades_label
     then handleGrades portal msg
     else showMainMenu (chat_id msg)) w.
Proof.
  intros Hs. unfold handleMessage. run_handler. now rewrite Hs.
Qed.

Lemma show_grades_is_no_command :
  str_eqb show_grades_label (js "/start") = false
  /\ str_eqb show_grades_label (js "/help") = false
  /\ str_eqb show_grades_label help_label = false
  /\ str_eqb show_grades_label show_grades_label = true.
Proof. vm_compute. tauto. Qed.

Lemma handleMessage_show_grades msg w :
  userStates w !! from_id msg = None ->
  text_of msg = show_grades_label ->
  handleMessage portal msg w = handleGrades portal msg w.
Proof.
  intros Hs Ht. rewrite handleMessage_idle by exact Hs. rewrite Ht.
  destruct show_grades_is_no_command as (-> & -> & -> & ->). reflexivity.
Qed.

End Steps.

(** ** The texts *)

Lemma str_eqb_differs (s t : jsstring) (a b c : N) (s' t' : jsstring) :
  s = a :: b :: s' -> t = a :: c :: t' -> b <> c -> str_eqb s t = false.
Proof.
  intros -> -> Hbc. unfold str_eqb. apply bool_decide_eq_false.
  intros Heq. apply Hbc. congruence.
Qed.

Lemma grades_text_lines grades : forall header : jsstring,
  fold_left (fun message g => message ++ grade_line g) grades header
  = header ++ flat_map grade_line grades.
Proof.
  induction grades as [| g grades IH]; intros header; cbn [fold_left flat_map].
  - now rewrite app_nil_r.
  - rewrite IH. now rewrite <- app_assoc.
Qed.

(** The list of grades starts with the chart sign of its header. *)
Lemma grades_text_head grades :
  exists rest : jsstring, grades_text grades = 0xD83D :: 0xDCCA :: rest.
Proof.
  unfold grades_text. rewrite grades_text_lines.
  assert (H : exists r, js "📊 *Your Grades*" ++ LF ++ LF
                        = 0xD83D :: 0xDCCA :: r)
    by (vm_compute; eexists; reflexivity).
  destruct H as [r Hr]. rewrite Hr.
  exists (r ++ flat_map grade_line grades). reflexivity.
Qed.

Lemma grades_text_is_no_prompt grades :
  str_eqb (grades_text grades) ask_username_text = false
  /\ str_eqb (grades_text grades) ask_password_text = false
  /\ str_eqb (grades_text grades) username_saved_text = false.
Proof.
  destruct (grades_text_head grades) as [rest Hrest].
  split; [| split].
  - eapply str_eqb_differs; [exact Hrest | vm_compute; reflexivity | discriminate].
  - eapply str_eqb_differs; [exact Hrest | vm_compute; reflexivity | discriminate].
  - unfold str_eqb. apply bool_decide_eq_false. rewrite Hrest.
    vm_compute. discriminate.
Qed.

(** The report of a fetch prompts for nothing. *)
Lemma report_is_no_prompt chatId r :
  is_username_prompt (report chatId r) = false
  /\ is_password_prompt (report chatId r) = false.
Proof.
  unfold is_username_prompt, is_password_prompt.
  destruct r as [[| g grades] | e]; cbn [report content].
  - vm_compute. tauto.
  - destruct (grades_text_is_no_prompt (g :: grades)) as (-> & -> & ->).
    tauto.
  - vm_compute. tauto.
Qed.

Lemma fixed_texts_prompts :
  forall (chatId : Z) (mode : option jsstring),
    (is_username_prompt (Sent chatId ask_username_text mode None) = true
     /\ is_password_prompt (Sent chatId ask_username_text mode None) = false)
    /\ (is_username_prompt (Sent chatId username_saved_text mode None) = false
        /\ is_password_prompt (Sent chatId username_saved_text mode None)
           = true)
    /\ (is_username_prompt (Sent chatId password_saved_text mode None) = false
        /\ is_password_prompt (Sent chatId password_saved_text mode None)
           = false).
Proof. intros chatId mode. vm_compute. tauto. Qed.

(** ** Profiles and stages along the runs *)

Lemma ensure_keeps userId displayName (us : gmap Z profile) (k : Z) :
  is_Some (us !! k) -> is_Some (ensure userId displayName us !! k).
Proof.
  unfold ensure. destruct (us !! userId) eqn:Hu; [trivial |].
  intros Hk. destruct (decide (userId = k)) as [-> | Hne].
  - rewrite lookup_insert_eq. eauto.
  - now rewrite lookup_insert_ne.
Qed.

Lemma stage_has_profile_step (w w' : world) :
  stage_has_profile w ->
  (forall k, is_Some (users w !! k) -> is_Some (users w' !! k)) ->
  (forall k, is_Some (userStates w' !! k) ->
             is_Some (userStates w !! k) \/ is_Some (users w' !! k)) ->
  stage_has_profile w'.
Proof.
  intros Hw Hu Hs k Hk. destruct (Hs k Hk) as [H | H]; [| exact H].
  apply Hu, Hw, H.
Qed.

Section Invariant.

Variable portal : request -> option response.

Lemma handleGrades_stage_has_profile msg w :
  stage_has_profile w -> stage_has_profile (snd (handleGrades portal msg w)).
Proof.
  intros Hw. destruct (users w !! from_id msg) as [u |] eqn:Hu.
  - destruct (truthy (portalUsername u)) eqn:Hn;
      [destruct (truthy (portalPassword u)) eqn:Hp |].
    + now rewrite (handleGrades_fetches portal msg w u Hu Hn Hp).
    + rewrite (handleGrades_asks_password portal msg w u Hu Hn Hp).
      apply (stage_has_profile_step w); cbn; [exact Hw | trivial |].
      intros k Hk. destruct (decide (from_id msg = k)) as [<- | Hne].
      * right. rewrite Hu. eauto.
      * left. now rewrite lookup_insert_ne in Hk.
    + rewrite (handleGrades_asks_username portal msg w u Hu Hn).
      apply (stage_has_profile_step w); cbn; [exact Hw | trivial |].
      intros k Hk. destruct (decide (from_id msg = k)) as [<- | Hne].
      * right. rewrite Hu. eauto.
      * left. now rewrite lookup_insert_ne in Hk.
  - now rewrite (handleGrades_unknown_user portal msg w Hu).
Qed.

Lemma handleMessage_stage_has_profile msg w :
  stage_has_profile w -> stage_has_profile (snd (handleMessage portal msg w)).
Proof.
  intros Hw. destruct (userStates w !! from_id msg) as [[|] |] eqn:Hs.
  - destruct (Hw (from_id msg)) as [u Hu]; [rewrite Hs; eauto |].
    rewrite (handleMessage_awaiting_username portal msg w u Hs Hu).
    apply (stage_has_profile_step w); cbn; [exact Hw | |].
    + intros k Hk. destruct (decide (from_id msg = k)) as [<- | Hne].
      * rewrite lookup_insert_eq. eauto.
      * now rewrite lookup_insert_ne.
    + intros k Hk. destruct (decide (from_id msg = k)) as [<- | Hne].
      * right. rewrite lookup_insert_eq. eauto.
      * left. now rewrite lookup_insert_ne in Hk.
  - destruct (Hw (from_id msg)) as [u Hu]; [rewrite Hs; eauto |].
    rewrite (handleMessage_awaiting_password portal msg w u Hs Hu).
    apply handleGrades_stage_has_profile.
    apply (stage_has_profile_step w); cbn; [exact Hw | |].
    + intros k Hk. destruct (decide (from_id msg = k)) as [<- | Hne].
      * rewrite lookup_insert_eq. eauto.
      * now rewrite lookup_insert_ne.
    + intros k Hk. left. destruct (decide (from_id msg = k)) as [<- | Hne].
      * rewrite lookup_delete_eq in Hk. now destruct Hk.
      * now rewrite lookup_delete_ne in Hk.
  - rewrite (handleMessage_idle portal msg w Hs).
    destruct (str_eqb (text_of msg) (js "/start")).
    + apply (stage_has_profile_step w); cbn; [exact Hw | | auto].
      intros k. apply ensure_keeps.
    + destruct (str_eqb (text_of msg) (js "/help")
                || str_eqb (text_of msg) help_label); [exact Hw |].
      destruct (str_eqb (text_of msg) show_grades_label); [| exact Hw].
      now apply handleGrades_stage_has_profile.
Qed.

(** [handleGrades] leaves the directory as it is. *)
Lemma handleGrades_users msg w :
  users (snd (handleGrades portal msg w)) = users w.
Proof.
  destruct (users w !! from_id msg) as [u |] eqn:Hu.
  - destruct (truthy (portalUsername u)) eqn:Hn;
      [destruct (truthy (portalPassword u)) eqn:Hp |].
    + now rewrite (handleGrades_fetches portal msg w u Hu Hn Hp).
    + now rewrite (handleGrades_asks_password portal msg w u Hu Hn Hp).
    + now rewrite (handleGrades_asks_username portal msg w u Hu Hn).
  - now rewrite (handleGrades_unknown_user portal msg w Hu).
Qed.

(** A profile, once created, is never deleted. *)
Lemma handleMessage_keeps_profiles msg w (k : Z) :
  is_Some (users w !! k) ->
  is_Some (users (snd (handleMessage portal msg w)) !! k).
Proof.
  intros Hk. destruct (userStates w !! from_id msg) as [[|] |] eqn:Hs.
  - destruct (users w !! from_id msg) as [u |] eqn:Hu.
    + rewrite (handleMessage_awaiting_username portal msg w u Hs Hu). cbn.
      destruct (decide (from_id msg = k)) as [<- | Hne].
      * rewrite lookup_insert_eq. eauto.
      * now rewrite lookup_insert_ne.
    + unfold handleMessage. run_handler. rewrite Hs. cbn. now rewrite Hu.
  - destruct (users w !! from_id msg) as [u |] eqn:Hu.
    + rewrite (handleMessage_awaiting_password portal msg w u Hs Hu).
      rewrite handleGrades_users. cbn.
      destruct (decide (from_id msg = k)) as [<- | Hne].
      * rewrite lookup_insert_eq. eauto.
      * now rewrite lookup_insert_ne.
    + unfold handleMessage. run_handler. rewrite Hs. cbn. now rewrite Hu.
  - rewrite (handleMessage_idle portal msg w Hs).
    destruct (str_eqb (text_of msg) (js "/start")).
    + cbn. now apply ensure_keeps.
    + destruct (str_eqb (text_of msg) (js "/help")
                || str_eqb (text_of msg) help_label); [exact Hk |].
      destruct (str_eqb (text_of msg) show_grades_label); [| exact Hk].
      now rewrite handleGrades_users.
Qed.

(** The start command, sent while no stage is open, creates the profile. *)
Lemma handleMessage_start_creates_profile msg w :
  userStates w !! from_id msg = None ->
  text_of msg = js "/start" ->
  is_Some (users (snd (handleMessage portal msg w)) !! from_id msg).
Proof.
  intros Hs Ht. rewrite (handleMessage_idle portal msg w Hs), Ht.
  replace (str_eqb (js "/start") (js "/start")) with true
    by (vm_compute; reflexivity).
  cbn. unfold ensure.
  destruct (users w !! from_id msg) eqn:Hu.
  - rewrite Hu. eauto.
  - rewrite lookup_insert_eq. eauto.
Qed.

End Invariant.

Lemma reachable_stage_has_profile w : reachable w -> stage_has_profile w.
Proof.
  induction 1 as [| portal req w _ IH].
  - intros k. cbn. rewrite lookup_empty. intros [? H]. discriminate H.
  - destruct req as [| | [msg |] | |]; unfold handler; try exact IH.
    pose proof (handleMessage_stage_has_profile portal msg w IH) as H.
    now destruct (handleMessage portal msg w) as [[[] | e] w'].
Qed.

(** ** Claims on the directory and the router *)

(** C1: the code does not keep this invariant.  A first message that is not
    the start command leaves its sender without a profile, and the grade
    request of such a sender throws on the missing profile, which the entry
    point answers with a server error. *)
Theorem first_message_leaves_no_profile (portal : request -> option response) :
  let hello := Samples.text_from 7 (js "hello") in
  let show_grades := Samples.text_from 7 show_grades_label in
  let w := snd (handler portal (POST_update (Some hello)) initial) in
  users w !! 7%Z = None
  /\ handleMessage portal show_grades w = (Throw TypeError, w)
  /\ fst (handler portal (POST_update (Some show_grades)) w) = ServerError
  /\ users (snd (handler portal (POST_update (Some show_grades)) w)) !! 7%Z
     = None.
Proof. vm_compute. tauto. Qed.

(** C9: [ensure] is idempotent.  A second call with the same identifier
    changes nothing, whatever the display name; an existing profile is
    returned as it is; a fresh profile has both credentials null.  So it is
    for the start command sent twice. *)
Theorem ensure_idempotent (userId : Z) (name name' : jsstring)
  (us : gmap Z profile) :
  ensure userId name' (ensure userId name us) = ensure userId name us
  /\ (forall u : profile,
        us !! userId = Some u ->
        ensure userId name us = us /\ ensure userId name us !! userId = Some u)
  /\ (us !! userId = None ->
      ensure userId name us !! userId
      = Some {| telegramId := userId; firstName := name;
                portalUsername := None; portalPassword := None |})
  /\ (forall (msg msg' : message) (w : world),
        from_id msg = userId -> from_id msg' = userId ->
        users (exec (handleStart msg') (exec (handleStart msg) w))
        = users (exec (handleStart msg) w)).
Proof.
  assert (Hidem : forall n n' m,
            ensure userId n' (ensure userId n m) = ensure userId n m).
  { intros n n' m. unfold ensure at 1.
    destruct (ensure userId n m !! userId) eqn:H; [reflexivity |].
    exfalso. revert H. unfold ensure.
    destruct (m !! userId) eqn:Hm; [congruence |].
    now rewrite lookup_insert_eq. }
  split; [apply Hidem |]. split; [| split].
  - intros u Hu. unfold ensure. now rewrite Hu.
  - intros Hu. unfold ensure. rewrite Hu. apply lookup_insert_eq.
  - intros msg msg' w <- Heq. unfold exec, handleStart. run_handler.
    rewrite Heq. apply Hidem.
Qed.

Lemma ensure_idempotent_witness :
  ensure 7 (js "Abebe") (ensure 7 (js "Abebe") ∅) !! 7%Z
  = Some {| telegramId := 7; firstName := js "Abebe";
            portalUsername := None; portalPassword := None |}.
Proof.
  rewrite (proj1 (ensure_idempotent 7 (js "Abebe") (js "Abebe") ∅)).
  apply (ensure_idempotent 7 (js "Abebe") (js "Abebe") ∅). reflexivity.
Defined.

Lemma report_is_no_menu_reply chatId r : is_menu_reply (report chatId r) = false.
Proof.
  unfold is_menu_reply.
  destruct r as [[| g grades] | e]; cbn [report content];
    [vm_compute; reflexivity | | vm_compute; reflexivity].
  destruct (grades_text_head (g :: grades)) as [rest ->].
  unfold str_eqb. rewrite !bool_decide_eq_false_2; [reflexivity | | |];
    vm_compute; discriminate.
Qed.

Lemma ask_username_is_no_menu_reply (chatId : Z) (mode : option jsstring) :
  is_menu_reply (Sent chatId ask_username_text mode None) = false.
Proof. vm_compute. reflexivity. Qed.

Lemma ask_password_is_no_menu_reply (chatId : Z) (mode : option jsstring) :
  is_menu_reply (Sent chatId ask_password_text mode None) = false.
Proof. vm_compute. reflexivity. Qed.

Lemma username_saved_is_no_menu_reply (chatId : Z) (mode : option jsstring) :
  is_menu_reply (Sent chatId username_saved_text mode None) = false.
Proof. vm_compute. reflexivity. Qed.

Lemma password_saved_is_no_menu_reply (chatId : Z) (mode : option jsstring) :
  is_menu_reply (Sent chatId password_saved_text mode None) = false.
Proof. vm_compute. reflexivity. Qed.

(** C4: in every world the entry point can reach, a message of a sender whose
    stage is open is consumed as the awaited credential, whatever its text.
    While the username is awaited the profile afterwards holds the trimmed
    text as username, the password is awaited and the only reply is the
    acknowledgement.  While the password is awaited the profile afterwards
    holds the trimmed text as password, the stage is closed, the
    acknowledgement is sent and the grade request follows; none of the
    replies is the welcome, the help or the menu.  Only when no stage is
    open is the text matched against the commands and buttons, the main menu
    being the default. *)
Theorem open_stage_consumes_text
  (portal : request -> option response) (msg : message) (w : world) :
  reachable w ->
  (stage_of (from_id msg) w = Some awaiting_username ->
   exists u : profile,
     users w !! from_id msg = Some u
     /\ handleMessage portal msg w
        = (Return tt,
           {| users :=
                <[from_id msg
                  := {| telegramId := telegramId u;
                        firstName := firstName u;
                        portalUsername := Some (trim (text_of msg));
                        portalPassword := portalPassword u |}]>
                  (users w);
              userStates :=
                <[from_id msg := awaiting_password]> (userStates w);
              outbox := outbox w ++ [ {| to := chat_id msg;
                                         content := username_saved_text;
                                         parse_mode := Markdown;
                                         markup_of := None |} ];
              wire := wire w |})
     /\ users (snd (handleMessage portal msg w)) !! from_id msg
        = Some {| telegramId := telegramId u;
                  firstName := firstName u;
                  portalUsername := Some (trim (text_of msg));
                  portalPassword := portalPassword u |}
     /\ is_menu_reply {| to := chat_id msg; content := username_saved_text;
                         parse_mode := Markdown; markup_of := None |}
        = false)
  /\ (stage_of (from_id msg) w = Some awaiting_password ->
      exists u : profile,
        users w !! from_id msg = Some u
        /\ handleMessage portal msg w
           = handleGrades portal msg
               {| users :=
                    <[from_id msg
                      := {| telegramId := telegramId u;
                            firstName := firstName u;
                            portalUsername := portalUsername u;
                            portalPassword := Some (trim (text_of msg)) |}]>
                      (users w);
                  userStates := delete (from_id msg) (userStates w);
                  outbox := outbox w ++ [ {| to := chat_id msg;
                                             content := password_saved_text;
                                             parse_mode := plain;
                                             markup_of := None |} ];
                  wire := wire w |}
        /\ fst (handleMessage portal msg w) = Return tt
        /\ users (snd (handleMessage portal msg w)) !! from_id msg
           = Some {| telegramId := telegramId u;
                     firstName := firstName u;
                     portalUsername := portalUsername u;
                     portalPassword := Some (trim (text_of msg)) |}
        /\ exists then_sent : sent,
             outbox (snd (handleMessage portal msg w))
             = outbox w ++ [ {| to := chat_id msg;
                                content := password_saved_text;
                                parse_mode := plain;
                                markup_of := None |};
                             then_sent ]
             /\ is_menu_reply {| to := chat_id msg;
                                 content := password_saved_text;
                                 parse_mode := plain; markup_of := None |}
                = false
             /\ is_menu_reply then_sent = false)
  /\ (stage_of (from_id msg) w = None ->
      handleMessage portal msg w
      = (if str_eqb (text_of msg) (js "/start") then handleStart msg
         else if str_eqb (text_of msg) (js "/help")
                 || str_eqb (text_of msg) help_label
         then handleHelp msg
         else if str_eqb (text_of msg) show_grades_label
         then handleGrades portal msg
         else showMainMenu (chat_id msg)) w).
Proof.
  intros Hreach. apply reachable_stage_has_profile in Hreach.
  unfold stage_of. split; [| split].
  - intros Hs. destruct (Hreach (from_id msg)) as [u Hu]; [rewrite Hs; eauto |].
    exists u. split; [exact Hu |].
    rewrite (handleMessage_awaiting_username portal msg w u Hs Hu).
    split; [reflexivity |]. split.
    + cbn [snd users]. apply lookup_insert_eq.
    + exact (username_saved_is_no_menu_reply _ _).
  - intros Hs. destruct (Hreach (from_id msg)) as [u Hu]; [rewrite Hs; eauto |].
    exists u. split; [exact Hu |].
    rewrite (handleMessage_awaiting_password portal msg w u Hs Hu).
    split; [reflexivity |].
    set (stored := set_portalPassword (trim (text_of msg)) u).
    set (w' := {| users := <[from_id msg := stored]> (users w);
                  userStates := delete (from_id msg) (userStates w);
                  outbox := outbox w ++ [ {| to := chat_id msg;
                                             content := password_saved_text;
                                             parse_mode := plain;
                                             markup_of := None |} ];
                  wire := wire w |}).
    assert (Hstored : users w' !! from_id msg = Some stored)
      by apply lookup_insert_eq.
    split; [| split].
    + destruct (truthy (portalUsername stored)) eqn:Hn;
        [destruct (truthy (portalPassword stored)) eqn:Hp |].
      * now rewrite (handleGrades_fetches portal msg w' stored Hstored Hn Hp).
      * now rewrite (handleGrades_asks_password portal msg w' stored Hstored
                       Hn Hp).
      * now rewrite (handleGrades_asks_username portal msg w' stored Hstored
                       Hn).
    + rewrite handleGrades_users. exact Hstored.
    + destruct (truthy (portalUsername stored)) eqn:Hn;
        [destruct (truthy (portalPassword stored)) eqn:Hp |].
      * rewrite (handleGrades_fetches portal msg w' stored Hstored Hn Hp).
        cbn [snd outbox w']. rewrite <- app_assoc. cbn [app].
        eexists. split; [reflexivity |].
        split; [exact (password_saved_is_no_menu_reply _ _)
               | apply report_is_no_menu_reply].
      * rewrite (handleGrades_asks_password portal msg w' stored Hstored
                   Hn Hp).
        cbn [snd outbox w']. rewrite <- app_assoc. cbn [app].
        eexists. split; [reflexivity |].
        split; [exact (password_saved_is_no_menu_reply _ _)
               | exact (ask_password_is_no_menu_reply _ _)].
      * rewrite (handleGrades_asks_username portal msg w' stored Hstored Hn).
        cbn [snd outbox w']. rewrite <- app_assoc. cbn [app].
        eexists. split; [reflexivity |].
        split; [exact (password_saved_is_no_menu_reply _ _)
               | exact (ask_username_is_no_menu_reply _ _)].
  - apply handleMessage_idle.
Qed.

Lemma open_stage_consumes_text_witness :
  let start := Samples.text_from 7 (js "/start") in
  let show_grades := Samples.text_from 7 show_grades_label in
  let help := Samples.text_from 7 (js " /help ") in
  let w :=
    snd (handler Samples.unreachable (POST_update (Some show_grades))
           (snd (handler Samples.unreachable (POST_update (Some start))
                   initial))) in
  let w' := snd (handler Samples.unreachable (POST_update (Some help)) w) in
  (users (snd (handleMessage Samples.unreachable help w)) !! 7%Z
   = Some {| telegramId := 7; firstName := js "Abebe";
             portalUsername := Some (js "/help"); portalPassword := None |}
   /\ outbox (snd (handleMessage Samples.unreachable help w))
      = outbox w ++ [ {| to := 7; content := username_saved_text;
                         parse_mode := Markdown; markup_of := None |} ])
  /\ users (snd (handleMessage Samples.unreachable start w')) !! 7%Z
     = Some {| telegramId := 7; firstName := js "Abebe";
               portalUsername := Some (js "/help");
               portalPassword := Some (js "/start") |}.
Proof.
  intros start show_grades help w w'. split.
  - destruct (proj1 (open_stage_consumes_text Samples.unreachable help w
                       (reachable_step _ _ _
                          (reachable_step _ _ _ reachable_initial))))
      as (u & Hu & Hrun & Hstored & _).
    + vm_compute. reflexivity.
    + assert (Hu' : u = {| telegramId := 7; firstName := js "Abebe";
                           portalUsername := None; portalPassword := None |}).
      { vm_compute in Hu. now injection Hu as <-. }
      split.
      * etransitivity; [exact Hstored |]. rewrite Hu'.
        vm_compute. reflexivity.
      * rewrite Hrun. reflexivity.
  - destruct (proj1 (proj2 (open_stage_consumes_text Samples.unreachable
                              start w'
                              (reachable_step _ _ _
                                 (reachable_step _ _ _
                                    (reachable_step _ _ _
                                       reachable_initial))))))
      as (u & Hu & _ & _ & Hstored & _).
    + vm_compute. reflexivity.
    + assert (Hu' : u = {| telegramId := 7; firstName := js "Abebe";
                           portalUsername := Some (js "/help");
                           portalPassword := None |}).
      { vm_compute in Hu. injection Hu as <-. vm_compute. reflexivity. }
      etransitivity; [exact Hstored |]. rewrite Hu'. vm_compute. reflexivity.
Defined.

(** ** Claims on the grade request *)

Lemma no_grades_text_is_not_failed_text : no_grades_text <> failed_text.
Proof. vm_compute. discriminate. Qed.

(** C7: once the handshake has gone through, a grades page without the
    grades table gives the empty sequence and no error; [handleGrades] then
    tells the user that no grades were found.  When the fetch throws
    instead, whatever the error, [handleGrades] sends the failure text, and
    the two texts differ. *)
Theorem absent_table_reports_no_grades
  (portal : request -> option response) (username password : jsstring)
  (loginPage loginResp gradesPage : response) :
  portal login_page_request = Some loginPage ->
  portal (login_request username password
            (or_empty (csrf_token_of (markup loginPage)))) = Some loginResp ->
  truthy (set_cookie loginResp) = true ->
  portal (grades_request (set_cookie loginResp)) = Some gradesPage ->
  occurs_in is_grades_table (markup gradesPage) = false ->
  eval (fetchGradesFromPortal portal username password) [] = Return []
  /\ (forall (msg : message) (w : world) (u : profile),
        users w !! from_id msg = Some u ->
        portalUsername u = Some username ->
        portalPassword u = Some password ->
        truthy (Some username) = true ->
        truthy (Some password) = true ->
        handleGrades portal msg w
        = (Return tt,
           {| users := users w;
              userStates := userStates w;
              outbox := outbox w ++ [ {| to := chat_id msg;
                                         content := no_grades_text;
                                         parse_mode := plain;
                                         markup_of := None |} ];
              wire := wire w
                      ++ exec (fetchGradesFromPortal portal username password)
                           [] |}))
  /\ (forall (failing : request -> option response) (e : error)
             (msg : message) (w : world) (u : profile),
        users w !! from_id msg = Some u ->
        portalUsername u = Some username ->
        portalPassword u = Some password ->
        truthy (Some username) = true ->
        truthy (Some password) = true ->
        eval (fetchGradesFromPortal failing username password) [] = Throw e ->
        handleGrades failing msg w
        = (Return tt,
           {| users := users w;
              userStates := userStates w;
              outbox := outbox w ++ [ {| to := chat_id msg;
                                         content := failed_text;
                                         parse_mode := plain;
                                         markup_of := None |} ];
              wire := wire w
                      ++ exec (fetchGradesFromPortal failing username
                                 password) [] |}))
  /\ no_grades_text <> failed_text.
Proof.
  intros H1 H2 H3 H4 Habsent.
  assert (Hfetch : eval (fetchGradesFromPortal portal username password) []
                   = Return []).
  { unfold eval. rewrite (fetchGrades_scrapes _ _ _ _ _ _ H1 H2 H3 H4).
    cbn [fst]. unfold scrape, grades_rows.
    now rewrite select_below_absent. }
  split; [exact Hfetch |]. split; [| split].
  - intros msg w u Hu Hn Hp Htn Htp.
    rewrite (handleGrades_fetches portal msg w u Hu)
      by (rewrite ?Hn, ?Hp; assumption).
    rewrite Hn, Hp. cbn [default from_option id].
    unfold eval in Hfetch. rewrite Hfetch. reflexivity.
  - intros failing e msg w u Hu Hn Hp Htn Htp Hfail.
    rewrite (handleGrades_fetches failing msg w u Hu)
      by (rewrite ?Hn, ?Hp; assumption).
    rewrite Hn, Hp. cbn [default from_option id].
    unfold eval in Hfail. rewrite Hfail. reflexivity.
  - exact no_grades_text_is_not_failed_text.
Qed.

Lemma absent_table_reports_no_grades_witness :
  let no_table :=
    Samples.portal_serving (Samples.login_page "T") (Some (js "sid=1"))
      Samples.no_table_page in
  let msg := Samples.text_from 7 show_grades_label in
  eval (fetchGradesFromPortal no_table (js "alice") (js "secret")) []
  = Return []
  /\ outbox (snd (handleGrades no_table msg Samples.with_credentials))
     = [ {| to := 7; content := no_grades_text; parse_mode := plain;
            markup_of := None |} ]
  /\ outbox (snd (handleGrades Samples.unreachable msg
                    Samples.with_credentials))
     = [ {| to := 7; content := failed_text; parse_mode := plain;
            markup_of := None |} ].
Proof.
  intros no_table msg.
  destruct (absent_table_reports_no_grades no_table (js "alice")
              (js "secret")
              {| set_cookie := None; markup := Samples.login_page "T" |}
              {| set_cookie := Some (js "sid=1"); markup := [] |}
              {| set_cookie := None; markup := Samples.no_table_page |})
    as (Hempty & Hnone & Hfailed & _); try (vm_compute; reflexivity).
  split; [exact Hempty |]. split.
  - rewrite (Hnone msg Samples.with_credentials
               {| telegramId := 7; firstName := js "Abebe";
                  portalUsername := Some (js "alice");
                  portalPassword := Some (js "secret") |});
      try reflexivity; vm_compute; reflexivity.
  - rewrite (Hfailed Samples.unreachable FetchError msg
               Samples.with_credentials
               {| telegramId := 7; firstName := js "Abebe";
                  portalUsername := Some (js "alice");
                  portalPassword := Some (js "secret") |});
      try reflexivity; vm_compute; reflexivity.
Defined.

(** C5: when the fetch of a grade request fails, with whatever error, the
    stored credentials and the stages are as before, the stage of the user
    staying NONE, and the user is told of the failure; the next grade request
    of the user asks the portal again with the same credentials and sends no
    prompt. *)
Theorem failed_fetch_keeps_credentials
  (portal portal' : request -> option response) (msg msg' : message)
  (w : world) (u : profile) (e : error) :
  users w !! from_id msg = Some u ->
  truthy (portalUsername u) = true ->
  truthy (portalPassword u) = true ->
  stage_of (from_id msg) w = None ->
  eval (fetchGradesFromPortal portal (default [] (portalUsername u))
          (default [] (portalPassword u))) [] = Throw e ->
  from_id msg' = from_id msg ->
  text_of msg' = show_grades_label ->
  let w' := exec (handleGrades portal msg) w in
  let retry :=
    fetchGradesFromPortal portal' (default [] (portalUsername u))
      (default [] (portalPassword u)) [] in
  (users w' = users w /\ userStates w' = userStates w
   /\ users w' !! from_id msg = Some u /\ stage_of (from_id msg) w' = None
   /\ outbox w' = outbox w ++ [ {| to := chat_id msg; content := failed_text;
                                   parse_mode := plain; markup_of := None |} ])
  /\ handleMessage portal' msg' w'
     = (Return tt,
        {| users := users w;
           userStates := userStates w;
           outbox := outbox w' ++ [report (chat_id msg') (fst retry)];
           wire := wire w' ++ snd retry |})
  /\ is_username_prompt (report (chat_id msg') (fst retry)) = false
  /\ is_password_prompt (report (chat_id msg') (fst retry)) = false.
Proof.
  intros Hu Hn Hp Hs Hfail Hfrom Htext w' retry.
  assert (Hw' : w' = {| users := users w; userStates := userStates w;
                        outbox := outbox w
                                  ++ [ {| to := chat_id msg;
                                          content := failed_text;
                                          parse_mode := plain;
                                          markup_of := None |} ];
                        wire := wire w
                                ++ exec (fetchGradesFromPortal portal
                                           (default [] (portalUsername u))
                                           (default [] (portalPassword u)))
                                     [] |}).
  { unfold w', exec. rewrite (handleGrades_fetches portal msg w u Hu Hn Hp).
    cbn [snd]. unfold eval in Hfail. now rewrite Hfail. }
  split; [| split; [| apply report_is_no_prompt]].
  - rewrite Hw'. cbn. unfold stage_of in Hs. auto.
  - rewrite handleMessage_show_grades.
    + rewrite (handleGrades_fetches portal' msg' w' u); try assumption.
      * fold retry. now rewrite Hw'.
      * rewrite Hfrom, Hw'. exact Hu.
    + rewrite Hfrom, Hw'. exact Hs.
    + exact Htext.
Qed.

Lemma failed_fetch_keeps_credentials_witness :
  let msg := Samples.text_from 7 show_grades_label in
  let w' := exec (handleGrades Samples.unreachable msg)
              Samples.with_credentials in
  users w' = users Samples.with_credentials
  /\ userStates w' = userStates Samples.with_credentials
  /\ users w' !! 7%Z
     = Some {| telegramId := 7; firstName := js "Abebe";
               portalUsername := Some (js "alice");
               portalPassword := Some (js "secret") |}
  /\ stage_of 7 w' = None
  /\ outbox w' = [ {| to := 7; content := failed_text; parse_mode := plain;
                      markup_of := None |} ].
Proof.
  intros msg w'.
  apply (failed_fetch_keeps_credentials Samples.unreachable Samples.campus
           msg msg Samples.with_credentials
           {| telegramId := 7; firstName := js "Abebe";
              portalUsername := Some (js "alice");
              portalPassword := Some (js "secret") |} FetchError);
    vm_compute; reflexivity.
Defined.

Lemma truthy_nonempty (s : jsstring) : s <> [] -> truthy (Some s) = true.
Proof. destruct s; [congruence | reflexivity]. Qed.

(** C3, amended: a fresh user who requests grades and then sends two texts
    that are not empty once trimmed goes through the stages NONE, awaiting
    username, awaiting password, NONE, and is sent the prompt for the
    username once and a prompt for the password once, whatever else the two
    texts are and whatever the portal does. *)
Theorem fresh_user_dialogue
  (p1 p2 p3 : request -> option response) (w0 : world)
  (m1 m2 m3 : message) (u : profile) :
  users w0 !! from_id m1 = Some u ->
  portalUsername u = None ->
  portalPassword u = None ->
  stage_of (from_id m1) w0 = None ->
  text_of m1 = show_grades_label ->
  from_id m2 = from_id m1 ->
  from_id m3 = from_id m1 ->
  trim (text_of m2) <> [] ->
  trim (text_of m3) <> [] ->
  dialogue_as_specified p1 p2 p3 w0 m1 m2 m3.
Proof.
  intros Hu Hn Hp Hs Ht1 Hf2 Hf3 Ht2 Ht3.
  unfold dialogue_as_specified, exec, stage_of in *.
  (* the grade request *)
  rewrite (handleMessage_show_grades p1 m1 w0 Hs Ht1).
  rewrite (handleGrades_asks_username p1 m1 w0 u Hu) by now rewrite Hn.
  cbn [snd].
  (* the username *)
  rewrite (handleMessage_awaiting_username p2 m2 _ u)
    by (cbn; rewrite Hf2; first [apply lookup_insert_eq | exact Hu]).
  cbn [snd].
  (* the password *)
  rewrite (handleMessage_awaiting_password p3 m3 _
             (set_portalUsername (trim (text_of m2)) u))
    by (cbn; rewrite Hf2, Hf3; apply lookup_insert_eq).
  rewrite (handleGrades_fetches p3 m3 _
             (set_portalPassword (trim (text_of m3))
                (set_portalUsername (trim (text_of m2)) u)))
    by (cbn; rewrite ?Hf3; solve [apply lookup_insert_eq
                                 | now apply truthy_nonempty]).
  cbn [snd users userStates outbox wire]. rewrite Hf2, Hf3.
  split; [exact Hs |]. split; [apply lookup_insert_eq |].
  split; [apply lookup_insert_eq |]. split; [apply lookup_delete_eq |].
  eexists. split.
  - rewrite <- !app_assoc. cbn [app]. reflexivity.
  - unfold prompts. cbn [List.filter].
    destruct (fixed_texts_prompts (chat_id m1) Markdown)
      as ((-> & ->) & _ & _).
    destruct (fixed_texts_prompts (chat_id m2) Markdown)
      as (_ & (-> & ->) & _).
    destruct (fixed_texts_prompts (chat_id m3) plain)
      as (_ & _ & (-> & ->)).
    match goal with
    | |- context [report ?c ?r] =>
      destruct (report_is_no_prompt c r) as (-> & ->)
    end.
    split; reflexivity.
Qed.

Lemma fresh_user_dialogue_witness :
  dialogue_as_specified Samples.unreachable Samples.unreachable Samples.campus
    Samples.fresh_user
    (Samples.text_from 7 show_grades_label)
    (Samples.text_from 7 (js "/help"))
    (Samples.text_from 7 (js " /start ")).
Proof.
  apply (fresh_user_dialogue _ _ _ Samples.fresh_user _ _ _
           {| telegramId := 7; firstName := js "Abebe";
              portalUsername := None; portalPassword := None |});
    try (vm_compute; reflexivity); vm_compute; discriminate.
Defined.

(** C3, as the specification states it, fails on a username of white space:
    the trimmed text is empty, so that the grade request made once the
    password is stored asks for the username again. *)
Lemma blank_username_reopens_dialogue :
  let m1 := Samples.text_from 7 show_grades_label in
  let m2 := Samples.text_from 7 (js "  ") in
  let m3 := Samples.text_from 7 (js "secret") in
  let w3 :=
    exec (handleMessage Samples.campus m3)
      (exec (handleMessage Samples.campus m2)
         (exec (handleMessage Samples.campus m1) Samples.fresh_user)) in
  users Samples.fresh_user !! 7%Z
  = Some {| telegramId := 7; firstName := js "Abebe";
            portalUsername := None; portalPassword := None |}
  /\ stage_of 7 Samples.fresh_user = None
  /\ stage_of 7 w3 = Some awaiting_username
  /\ prompts is_username_prompt (outbox w3) = 2%nat
  /\ ~ dialogue_as_specified Samples.campus Samples.campus Samples.campus
         Samples.fresh_user m1 m2 m3.
Proof.
  intros m1 m2 m3 w3.
  assert (Hstage : stage_of 7 w3 = Some awaiting_username)
    by (vm_compute; reflexivity).
  split; [vm_compute; reflexivity |]. split; [vm_compute; reflexivity |].
  split; [exact Hstage |]. split; [vm_compute; reflexivity |].
  intros (_ & _ & _ & Hnone & _).
  change (stage_of 7 w3 = None) in Hnone. congruence.
Qed.

(** * Further properties *)

(** ** Trimming *)

Lemma trimStart_split (s : jsstring) :
  exists pre : jsstring,
    s = pre ++ trimStart s /\ all_space pre = true.
Proof.
  induction s as [| c s (pre & Hs & Hpre)]; [now exists [] |].
  cbn [trimStart]. destruct (is_white_space c) eqn:Hc.
  - exists (c :: pre). split; [cbn; congruence |].
    unfold all_space in *. cbn. now rewrite Hc.
  - now exists [].
Qed.

Lemma trimStart_starts (s : jsstring) : starts_with_space (trimStart s) = false.
Proof.
  induction s as [| c s IH]; [reflexivity |].
  cbn [trimStart]. destruct (is_white_space c) eqn:Hc; [exact IH |].
  exact Hc.
Qed.

Lemma trimStart_fixed (s : jsstring) :
  starts_with_space s = false -> trimStart s = s.
Proof. destruct s as [| c s]; [reflexivity |]. cbn. now intros ->. Qed.

Lemma all_space_rev (s : jsstring) : all_space (rev s) = all_space s.
Proof.
  unfold all_space. apply eq_true_iff_eq.
  rewrite !forallb_forall. split; intros H x Hx; apply H.
  - now apply in_rev in Hx.
  - now apply in_rev.
Qed.

Lemma trimEnd_split (s : jsstring) :
  exists post : jsstring,
    s = trimEnd s ++ post /\ all_space post = true.
Proof.
  destruct (trimStart_split (rev s)) as (pre & Hs & Hpre).
  exists (rev pre). split; [| now rewrite all_space_rev].
  unfold trimEnd. rewrite <- rev_app_distr, <- Hs. now rewrite rev_involutive.
Qed.

Lemma trimEnd_ends (s : jsstring) :
  starts_with_space (rev (trimEnd s)) = false.
Proof. unfold trimEnd. rewrite rev_involutive. apply trimStart_starts. Qed.

Lemma trimEnd_keeps_start (s : jsstring) :
  starts_with_space s = false -> starts_with_space (trimEnd s) = false.
Proof.
  intros Hs. destruct (trimEnd_split s) as (post & Heq & _).
  destruct (trimEnd s) as [| c t]; [reflexivity |].
  rewrite Heq in Hs. exact Hs.
Qed.

Lemma trimEnd_fixed (s : jsstring) :
  starts_with_space (rev s) = false -> trimEnd s = s.
Proof.
  intros H. unfold trimEnd. rewrite trimStart_fixed by exact H.
  apply rev_involutive.
Qed.

Lemma trim_no_outer_space (s : jsstring) : no_outer_space (trim s) = true.
Proof.
  unfold no_outer_space, trim.
  rewrite trimEnd_keeps_start by apply trimStart_starts.
  now rewrite trimEnd_ends.
Qed.

Lemma trim_fixed (s : jsstring) : no_outer_space s = true -> trim s = s.
Proof.
  unfold no_outer_space. intros H. apply andb_prop in H as [H1 H2].
  apply negb_true_iff in H1, H2. unfold trim.
  rewrite trimStart_fixed by exact H1. now apply trimEnd_fixed.
Qed.

Lemma all_space_trimStart (s : jsstring) :
  all_space s = true -> trimStart s = [].
Proof.
  unfold all_space. induction s as [| c s IH]; [reflexivity |].
  cbn. intros H. apply andb_prop in H as [-> Hs]. now apply IH.
Qed.

(** X1: [trim] removes white space at both ends and nothing else: the string
    is its trimmed part between two runs of white space, the trimmed part
    neither starts nor ends with white space, trimming it again changes
    nothing, and the result is empty exactly for a string of white space. *)
Theorem trim_specification (s : jsstring) :
  (exists pre post : jsstring,
     s = pre ++ trim s ++ post
     /\ all_space pre = true /\ all_space post = true)
  /\ no_outer_space (trim s) = true
  /\ trim (trim s) = trim s
  /\ (trim s = [] <-> all_space s = true).
Proof.
  split; [| split; [apply trim_no_outer_space | split]].
  - destruct (trimStart_split s) as (pre & Hs & Hpre).
    destruct (trimEnd_split (trimStart s)) as (post & Ht & Hpost).
    exists pre, post. split; [| now split].
    unfold trim. now rewrite <- Ht.
  - apply trim_fixed, trim_no_outer_space.
  - split.
    + intros Hempty.
      destruct (trimStart_split s) as (pre & Hs & Hpre).
      destruct (trimEnd_split (trimStart s)) as (post & Ht & Hpost).
      unfold trim in Hempty. rewrite Hempty in Ht. cbn in Ht.
      rewrite Hs, Ht. unfold all_space in *. rewrite forallb_app.
      now rewrite Hpre, Hpost.
    + intros Hall. unfold trim. now rewrite all_space_trimStart.
Qed.

(** ** Outcomes of the handshake *)

Section Outcomes.

Variable portal : request -> option response.
Variables username password : jsstring.

(** The login went through, the grades page cannot be fetched. *)
Lemma fetchGrades_grades_page_down loginPage loginResp :
  portal login_page_request = Some loginPage ->
  portal (login_request username password
            (or_empty (csrf_token_of (markup loginPage)))) = Some loginResp ->
  truthy (set_cookie loginResp) = true ->
  portal (grades_request (set_cookie loginResp)) = None ->
  fetchGradesFromPortal portal username password []
  = (Throw FetchError, handshake username password loginPage loginResp).
Proof.
  intros H1 H2 H3 H4. unfold fetchGradesFromPortal, bind, fetch.
  rewrite H1. cbn. rewrite H2. cbn. rewrite H3. cbn. now rewrite H4.
Qed.

(** The five ways a call can go. *)
Lemma fetchGrades_cases :
  (portal login_page_request = None
   /\ fetchGradesFromPortal portal username password []
      = (Throw FetchError, [login_page_request]))
  \/ (exists loginPage,
        portal login_page_request = Some loginPage
        /\ let login := login_request username password
                          (or_empty (csrf_token_of (markup loginPage))) in
           (portal login = None
            /\ fetchGradesFromPortal portal username password []
               = (Throw FetchError, [login_page_request; login]))
           \/ (exists loginResp,
                 portal login = Some loginResp
                 /\ ((truthy (set_cookie loginResp) = false
                      /\ fetchGradesFromPortal portal username password []
                         = (Throw LoginFailed, [login_page_request; login]))
                     \/ (truthy (set_cookie loginResp) = true
                         /\ ((portal (grades_request (set_cookie loginResp))
                              = None
                              /\ fetchGradesFromPortal portal username
                                   password []
                                 = (Throw FetchError,
                                    handshake username password loginPage
                                      loginResp))
                             \/ (exists gradesPage,
                                   portal (grades_request
                                             (set_cookie loginResp))
                                   = Some gradesPage
                                   /\ fetchGradesFromPortal portal username
                                        password []
                                      = (Return (scrape (markup gradesPage)),
                                         handshake username password
                                           loginPage loginResp))))))).
Proof.
  destruct (portal login_page_request) as [loginPage |] eqn:H1;
    [right; exists loginPage; split; [reflexivity |]
    | left; split; [reflexivity | now apply fetchGrades_login_page_down]].
  cbv zeta.
  destruct (portal (login_request username password
              (or_empty (csrf_token_of (markup loginPage)))))
    as [loginResp |] eqn:H2;
    [right; exists loginResp; split; [reflexivity |]
    | left; split; [reflexivity | now apply fetchGrades_login_down]].
  destruct (truthy (set_cookie loginResp)) eqn:H3;
    [right; split; [reflexivity |]
    | left; split;
      [reflexivity
      | now apply (fetchGrades_no_cookie _ _ _ loginPage loginResp)]].
  destruct (portal (grades_request (set_cookie loginResp)))
    as [gradesPage |] eqn:H4.
  - right. exists gradesPage. split; [reflexivity |].
    now apply fetchGrades_scrapes.
  - left. split; [reflexivity |]. now apply fetchGrades_grades_page_down.
Qed.

End Outcomes.

Ltac fetch_cases portal username password :=
  let loginPage := fresh "loginPage" in
  let loginResp := fresh "loginResp" in
  let gradesPage := fresh "gradesPage" in
  let H1 := fresh "Hpage" in
  let H2 := fresh "Hlogin" in
  let H3 := fresh "Hcookie" in
  let H4 := fresh "Hgrades" in
  let Hrun := fresh "Hrun" in
  destruct (fetchGrades_cases portal username password)
    as [(H1 & Hrun)
       | (loginPage & H1
          & [(H2 & Hrun)
            | (loginResp & H2
               & [(H3 & Hrun)
                 | (H3 & [(H4 & Hrun) | (gradesPage & H4 & Hrun)])])])].


(** X3: the outcome of a call is decided by the portal's answers.  It
    returns what it scrapes from the grades page exactly when the three
    requests are answered and the login response has a non-empty cookie; it
    throws the login failure exactly when the login response has no cookie
    or an empty one; it throws the transport failure exactly when the last
    request it made was not answered; it throws nothing else. *)
Theorem fetchGrades_outcome
  (portal : request -> option response) (username password : jsstring) :
  let run := fetchGradesFromPortal portal username password [] in
  (forall grades : list grade_record,
     fst run = Return grades <->
     exists loginPage loginResp gradesPage,
       portal login_page_request = Some loginPage
       /\ portal (login_request username password
                    (or_empty (csrf_token_of (markup loginPage))))
          = Some loginResp
       /\ truthy (set_cookie loginResp) = true
       /\ portal (grades_request (set_cookie loginResp)) = Some gradesPage
       /\ grades = scrape (markup gradesPage))
  /\ (fst run = Throw LoginFailed <->
      exists loginPage loginResp,
        portal login_page_request = Some loginPage
        /\ portal (login_request username password
                     (or_empty (csrf_token_of (markup loginPage))))
           = Some loginResp
        /\ truthy (set_cookie loginResp) = false)
  /\ (fst run = Throw FetchError <->
      exists req : request, last (snd run) = Some req /\ portal req = None)
  /\ fst run <> Throw TypeError.
Proof.
  cbv zeta. split; [| split; [| split]].
  - intros grades. split.
    + fetch_cases portal username password; rewrite Hrun; cbn [fst];
        intros Heq; try discriminate Heq.
      injection Heq as <-. now exists loginPage, loginResp, gradesPage.
    + intros (loginPage & loginResp & gradesPage & H1 & H2 & H3 & H4 & ->).
      now rewrite (fetchGrades_scrapes _ _ _ _ _ _ H1 H2 H3 H4).
  - split.
    + fetch_cases portal username password; rewrite Hrun; cbn [fst];
        intros Heq; try discriminate Heq.
      now exists loginPage, loginResp.
    + intros (loginPage & loginResp & H1 & H2 & H3).
      now rewrite (fetchGrades_no_cookie _ _ _ _ _ H1 H2 H3).
  - split.
    + fetch_cases portal username password; rewrite Hrun; cbn [fst snd];
        intros Heq; try discriminate Heq; eexists; (split; [reflexivity |]);
        assumption.
    + fetch_cases portal username password; rewrite Hrun;
        cbn [fst snd handshake last]; intros (req & Hlast & Hnone);
        try reflexivity; injection Hlast as <-; congruence.
  - fetch_cases portal username password; rewrite Hrun; discriminate.
Qed.

(** X4: when the login response carries a non-empty cookie, the third
    request of the call is the one for the grades page with exactly that
    value as its Cookie header, and it carries no form field: the credentials
    travel in the login request only. *)
Theorem fetchGrades_forwards_cookie
  (portal : request -> option response) (username password : jsstring)
  (loginPage loginResp : response) (c : N) (cs : jsstring) :
  portal login_page_request = Some loginPage ->
  portal (login_request username password
            (or_empty (csrf_token_of (markup loginPage)))) = Some loginResp ->
  set_cookie loginResp = Some (c :: cs) ->
  exists req : request,
    exec (fetchGradesFromPortal portal username password) [] !! 2%nat
    = Some req
    /\ url req = url (grades_request None)
    /\ cookie req = Some (c :: cs)
    /\ body req = [].
Proof.
  intros H1 H2 Hc. exists (grades_request (Some (c :: cs))).
  split; [| unfold grades_request; cbn [url cookie body]; auto].
  assert (H3 : truthy (set_cookie loginResp) = true) by (rewrite Hc; reflexivity).
  unfold exec.
  destruct (portal (grades_request (set_cookie loginResp)))
    as [gradesPage |] eqn:H4.
  - rewrite (fetchGrades_scrapes _ _ _ _ _ _ H1 H2 H3 H4). cbn.
    now rewrite Hc.
  - rewrite (fetchGrades_grades_page_down _ _ _ _ _ H1 H2 H3 H4). cbn.
    now rewrite Hc.
Qed.

Lemma fetchGrades_forwards_cookie_witness :
  exists req : request,
    exec (fetchGradesFromPortal Samples.campus (js "alice") (js "secret")) []
    !! 2%nat = Some req
    /\ url req = url (grades_request None)
    /\ cookie req = Some (js "sid=1")
    /\ body req = [].
Proof.
  apply (fetchGrades_forwards_cookie Samples.campus (js "alice")
           (js "secret")
           {| set_cookie := None; markup := Samples.login_page "T" |}
           {| set_cookie := Some (js "sid=1"); markup := [] |});
    vm_compute; reflexivity.
Defined.

(** ** The scraped records *)

Lemma records_of_rows_app rows rows' :
  records_of_rows (rows ++ rows')
  = records_of_rows rows ++ records_of_rows rows'.
Proof.
  unfold records_of_rows. now rewrite List.filter_app, List.map_app.
Qed.

Lemma grades_rows_app doc doc' :
  grades_rows (doc ++ doc') = grades_rows doc ++ grades_rows doc'.
Proof. unfold grades_rows, select_below. apply flat_map_app. Qed.

(** X5: the scraper finds the grades table wherever it is in the page: the
    records of a page are those of its parts one after the other, and an
    element that is not the grades table counts for its children only. *)
Theorem scrape_composes :
  scrape [] = []
  /\ (forall doc doc' : document,
        scrape (doc ++ doc') = scrape doc ++ scrape doc')
  /\ (forall (name : jsstring) (attribs : list (jsstring * jsstring))
             (children : list node),
        is_grades_table (Element name attribs children) = false ->
        scrape [Element name attribs children] = scrape children)
  /\ (forall d : jsstring, scrape [Text d] = []).
Proof.
  split; [reflexivity |]. split; [| split].
  - intros doc doc'. rewrite !scrape_records, grades_rows_app.
    apply records_of_rows_app.
  - intros name attribs children Hno. rewrite !scrape_records.
    f_equal. unfold grades_rows, select_below.
    cbn [flat_map matching_below andb orb]. rewrite Hno.
    cbn [app]. now rewrite app_nil_r.
  - reflexivity.
Qed.

(** X6: the call never returns more records than the grades table has rows,
    and no field of a record starts or ends with white space. *)
Theorem scrape_records_trimmed (doc : document) :
  (length (scrape doc) <= length (grades_rows doc))%nat
  /\ Forall (fun g => no_outer_space (course g) = true
                      /\ no_outer_space (grade g) = true
                      /\ no_outer_space (semester g) = true)
       (scrape doc).
Proof.
  rewrite scrape_records. unfold records_of_rows. split.
  - rewrite length_map. apply List.filter_length_le.
  - apply Forall_forall. intros g Hg.
    apply list_elem_of_In, in_map_iff in Hg as (row & <- & _).
    unfold row_record, cell_text. cbn [course grade semester].
    repeat split; apply trim_no_outer_space.
Qed.

(** ** Every way an update can go *)

Section Runs.

Variable portal : request -> option response.

(** A stage is open for a sender without profile: the assignment to the
    profile throws before anything is written. *)
Lemma handleMessage_open_unknown_user msg w st :
  userStates w !! from_id msg = Some st ->
  users w !! from_id msg = None ->
  handleMessage portal msg w = (Throw TypeError, w).
Proof.
  intros Hs Hu. unfold handleMessage. run_handler. rewrite Hs.
  destruct st; cbn; now rewrite Hu.
Qed.

Lemma handleGrades_known msg w u :
  users w !! from_id msg = Some u ->
  handleGrades portal msg w
  = (Return tt,
     if truthy (portalUsername u) then
       if truthy (portalPassword u) then
         let attempt :=
           fetchGradesFromPortal portal (default [] (portalUsername u))
             (default [] (portalPassword u)) [] in
         {| users := users w; userStates := userStates w;
            outbox := outbox w ++ [report (chat_id msg) (fst attempt)];
            wire := wire w ++ snd attempt |}
       else
         {| users := users w;
            userStates := <[from_id msg := awaiting_password]> (userStates w);
            outbox := outbox w
                      ++ [say (chat_id msg) ask_password_text Markdown];
            wire := wire w |}
     else
       {| users := users w;
          userStates := <[from_id msg := awaiting_username]> (userStates w);
          outbox := outbox w ++ [say (chat_id msg) ask_username_text Markdown];
          wire := wire w |}).
Proof.
  intros Hu. destruct (truthy (portalUsername u)) eqn:Hn;
    [destruct (truthy (portalPassword u)) eqn:Hp |].
  - apply (handleGrades_fetches portal msg w u Hu Hn Hp).
  - apply (handleGrades_asks_password portal msg w u Hu Hn Hp).
  - apply (handleGrades_asks_username portal msg w u Hu Hn).
Qed.

Lemma handleStart_run msg w :
  handleStart msg w
  = (Return tt,
     {| users := ensure (from_id msg) (first_name msg) (users w);
        userStates := userStates w;
        outbox := outbox w ++ [ say (chat_id msg) welcome_text plain;
                                menu_message (chat_id msg) ];
        wire := wire w |}).
Proof.
  unfold handleStart, showMainMenu. run_handler.
  now rewrite <- app_assoc.
Qed.

Lemma handleHelp_run msg w :
  handleHelp msg w
  = (Return tt,
     {| users := users w; userStates := userStates w;
        outbox := outbox w ++ [say (chat_id msg) help_text Markdown];
        wire := wire w |}).
Proof. reflexivity. Qed.

Lemma showMainMenu_run chatId w :
  showMainMenu chatId w
  = (Return tt,
     {| users := users w; userStates := userStates w;
        outbox := outbox w ++ [menu_message chatId];
        wire := wire w |}).
Proof. reflexivity. Qed.

End Runs.

(** Case analysis on [handleMessage portal msg w]: the goal is left with the
    outcome and the world of each way the update can go. *)
Ltac event_cases portal msg w :=
  let Hs := fresh "Hstage" in
  let u := fresh "u" in
  let Hu := fresh "Hu" in
  let Hn := fresh "Hname" in
  let Hp := fresh "Hpass" in
  let Hstart := fresh "Hstart" in
  let Hhelp := fresh "Hhelp" in
  let Hshow := fresh "Hshow" in
  destruct (userStates w !! from_id msg) as [[|] |] eqn:Hs;
  [ destruct (users w !! from_id msg) as [u |] eqn:Hu;
    [ rewrite (handleMessage_awaiting_username portal msg w u Hs Hu)
    | rewrite (handleMessage_open_unknown_user portal msg w _ Hs Hu) ]
  | destruct (users w !! from_id msg) as [u |] eqn:Hu;
    [ rewrite (handleMessage_awaiting_password portal msg w u Hs Hu);
      rewrite (handleGrades_known portal msg _
                 (set_portalPassword (trim (text_of msg)) u))
        by apply lookup_insert_eq;
      cbn [portalUsername portalPassword set_portalPassword];
      destruct (truthy (portalUsername u)) eqn:Hn;
      [ destruct (truthy (Some (trim (text_of msg)))) eqn:Hp | ]
    | rewrite (handleMessage_open_unknown_user portal msg w _ Hs Hu) ]
  | rewrite (handleMessage_idle portal msg w Hs);
    destruct (str_eqb (text_of msg) (js "/start")) eqn:Hstart;
    [ rewrite handleStart_run
    | destruct (str_eqb (text_of msg) (js "/help")
                || str_eqb (text_of msg) help_label) eqn:Hhelp;
      [ rewrite handleHelp_run
      | destruct (str_eqb (text_of msg) show_grades_label) eqn:Hshow;
        [ destruct (users w !! from_id msg) as [u |] eqn:Hu;
          [ rewrite (handleGrades_known portal msg w u Hu);
            destruct (truthy (portalUsername u)) eqn:Hn;
            [ destruct (truthy (portalPassword u)) eqn:Hp | ]
          | rewrite (handleGrades_unknown_user portal msg w Hu) ]
        | rewrite showMainMenu_run ] ] ] ];
  cbv zeta; cbn [fst snd users userStates outbox wire].

(** X7: an update of one user touches neither the profile nor the stage of
    any other user. *)
Theorem handleMessage_other_users
  (portal : request -> option response) (msg : message) (w : world)
  (k : Z) :
  k <> from_id msg ->
  users (exec (handleMessage portal msg) w) !! k = users w !! k
  /\ userStates (exec (handleMessage portal msg) w) !! k
     = userStates w !! k.
Proof.
  intros Hk. unfold exec.
  assert (Hens : ensure (from_id msg) (first_name msg) (users w) !! k
                 = users w !! k).
  { unfold ensure. destruct (users w !! from_id msg); [reflexivity |].
    now rewrite lookup_insert_ne. }
  event_cases portal msg w;
    rewrite ?lookup_insert_ne, ?lookup_delete_ne by congruence;
    auto.
Qed.

Lemma handleMessage_other_users_witness :
  users (exec (handleMessage Samples.campus
                 (Samples.text_from 8 (js "/start")))
           Samples.with_credentials) !! 7%Z
  = users Samples.with_credentials !! 7%Z.
Proof.
  apply (handleMessage_other_users Samples.campus
           (Samples.text_from 8 (js "/start")) Samples.with_credentials 7).
  vm_compute. discriminate.
Defined.

(** ** Profiles along the runs *)

Lemma kept_refl u : kept u u.
Proof. now repeat split. Qed.

Lemma kept_trans u u' u'' : kept u u' -> kept u' u'' -> kept u u''.
Proof.
  intros (H1 & H2 & H3 & H4) (H1' & H2' & H3' & H4').
  repeat split; [congruence | congruence | auto | auto].
Qed.

Lemma handleMessage_keeps
  (portal : request -> option response) (msg : message) (w : world)
  (k : Z) (u : profile) :
  users w !! k = Some u ->
  exists u' : profile,
    users (snd (handleMessage portal msg w)) !! k = Some u' /\ kept u u'.
Proof.
  intros Hk.
  assert (Hens : ensure (from_id msg) (first_name msg) (users w) !! k
                 = Some u).
  { unfold ensure. destruct (users w !! from_id msg) eqn:Hu; [exact Hk |].
    rewrite lookup_insert_ne; [exact Hk | congruence]. }
  event_cases portal msg w;
    try (exists u; split; [assumption | apply kept_refl]);
    (destruct (decide (k = from_id msg)) as [-> | Hne];
     [ rewrite lookup_insert_eq; eexists; split; [reflexivity |];
       replace u with u0 by congruence;
       repeat split; cbn; eauto
     | rewrite lookup_insert_ne by congruence;
       exists u; split; [assumption | apply kept_refl] ]).
Qed.

Lemma handler_keeps
  (portal : request -> option response) (req : verb) (w : world)
  (k : Z) (u : profile) :
  users w !! k = Some u ->
  exists u' : profile,
    users (snd (handler portal req w)) !! k = Some u' /\ kept u u'.
Proof.
  intros Hk. destruct req as [| | [msg |] | |]; unfold handler;
    try (exists u; split; [exact Hk | apply kept_refl]).
  destruct (handleMessage_keeps portal msg w k u Hk) as (u' & Hu' & Hkept).
  exists u'. split; [| exact Hkept].
  now destruct (handleMessage portal msg w) as [[[] | e] w'].
Qed.

(** X8: a profile is never deleted and never renamed, and a stored
    credential is never set back to null, whatever requests follow; so the
    start command of a known user, under whatever display name, changes
    nothing of the profile. *)
Theorem profiles_are_kept (w w' : world) (k : Z) (u : profile) :
  follows w w' ->
  users w !! k = Some u ->
  exists u' : profile,
    users w' !! k = Some u'
    /\ telegramId u' = telegramId u
    /\ firstName u' = firstName u
    /\ (is_Some (portalUsername u) -> is_Some (portalUsername u'))
    /\ (is_Some (portalPassword u) -> is_Some (portalPassword u')).
Proof.
  intros Hrun Hk.
  enough (H : exists u', users w' !! k = Some u' /\ kept u u')
    by (destruct H as (u' & Hu' & Hkept); now exists u').
  induction Hrun as [| portal req w' _ (u' & Hu' & Hkept)].
  - exists u. split; [exact Hk | apply kept_refl].
  - destruct (handler_keeps portal req w' k u' Hu') as (u'' & Hu'' & Hkept').
    exists u''. split; [exact Hu'' |]. now apply (kept_trans u u').
Qed.

Lemma profiles_are_kept_witness :
  exists u' : profile,
    users (snd (handler Samples.campus
                  (POST_update
                     (Some {| chat_id := 7; from_id := 7;
                              first_name := js "Kebede";
                              text_of := js "/start" |}))
                  Samples.with_credentials)) !! 7%Z = Some u'
    /\ telegramId u' = 7%Z
    /\ firstName u' = js "Abebe"
    /\ (is_Some (Some (js "alice")) -> is_Some (portalUsername u'))
    /\ (is_Some (Some (js "secret")) -> is_Some (portalPassword u')).
Proof.
  apply (profiles_are_kept Samples.with_credentials _ 7
           {| telegramId := 7; firstName := js "Abebe";
              portalUsername := Some (js "alice");
              portalPassword := Some (js "secret") |}).
  - apply follows_step, follows_now.
  - vm_compute. reflexivity.
Defined.

(** X9: in every world the entry point can reach, the Show Grades label sent
    by a user without profile throws a TypeError at the missing profile,
    before any write, reply or request to the portal: the entry point
    answers with a server error and the world is as it was. *)
Theorem show_grades_without_profile_fails
  (portal : request -> option response) (msg : message) (w : world) :
  reachable w ->
  users w !! from_id msg = None ->
  text_of msg = show_grades_label ->
  handleMessage portal msg w = (Throw TypeError, w)
  /\ handler portal (POST_update (Some msg)) w = (ServerError, w).
Proof.
  intros Hreach Hu Ht. apply reachable_stage_has_profile in Hreach.
  assert (Hs : userStates w !! from_id msg = None).
  { destruct (userStates w !! from_id msg) eqn:Hs; [| reflexivity].
    destruct (Hreach (from_id msg)) as [? Hsome];
      [rewrite Hs; eauto | congruence]. }
  assert (Hrun : handleMessage portal msg w = (Throw TypeError, w)).
  { rewrite (handleMessage_show_grades portal msg w Hs Ht).
    apply (handleGrades_unknown_user portal msg w Hu). }
  split; [exact Hrun |]. unfold handler. now rewrite Hrun.
Qed.

Lemma show_grades_without_profile_fails_witness :
  let w := snd (handler Samples.campus
                  (POST_update (Some (Samples.text_from 7 (js "/start"))))
                  initial) in
  handler Samples.campus
    (POST_update (Some (Samples.text_from 8 show_grades_label))) w
  = (ServerError, w).
Proof.
  intros w.
  apply (show_grades_without_profile_fails Samples.campus
           (Samples.text_from 8 show_grades_label) w
           (reachable_step _ _ _ reachable_initial)).
  - vm_compute. reflexivity.
  - reflexivity.
Defined.

Lemma report_to chatId r : to (report chatId r) = chatId.
Proof. now destruct r as [[| g grades] | e]. Qed.

(** X10: every message sent while an update is handled goes to the chat the
    update came from, nothing sent before is lost, and an update handled
    without throwing has sent at least one message. *)
Theorem handleMessage_replies
  (portal : request -> option response) (msg : message) (w : world) :
  exists new : list sent,
    outbox (snd (handleMessage portal msg w)) = outbox w ++ new
    /\ Forall (fun m => to m = chat_id msg) new
    /\ (fst (handleMessage portal msg w) = Return tt -> new <> []).
Proof.
  event_cases portal msg w; rewrite <- ?app_assoc; cbn [app];
    first
      [ exists []; rewrite app_nil_r;
        (split; [reflexivity |]); (split; [constructor |]);
        discriminate
      | eexists; (split; [reflexivity |]);
        (split; [repeat constructor; apply report_to |]);
        discriminate ].
Qed.

(** X11: an update contacts the portal only to fetch grades with both
    credentials stored: either nothing goes on the wire, or the sender's
    profile now holds a non-empty username and a non-empty password and the
    requests are those of one call with these two. *)
Theorem portal_contacted_only_with_credentials
  (portal : request -> option response) (msg : message) (w : world) :
  wire (snd (handleMessage portal msg w)) = wire w
  \/ exists u : profile,
       users (snd (handleMessage portal msg w)) !! from_id msg = Some u
       /\ truthy (portalUsername u) = true
       /\ truthy (portalPassword u) = true
       /\ wire (snd (handleMessage portal msg w))
          = wire w
            ++ exec (fetchGradesFromPortal portal
                       (default [] (portalUsername u))
                       (default [] (portalPassword u))) [].
Proof.
  event_cases portal msg w; try (left; reflexivity); right.
  - exists (set_portalPassword (trim (text_of msg)) u).
    rewrite lookup_insert_eq. now repeat split.
  - exists u. now repeat split.
Qed.

(** ** Prompts, menu and stages *)

(** Which texts of the handlers are prompts. *)
Lemma prompt_table :
  str_eqb username_saved_text ask_username_text = false
  /\ str_eqb username_saved_text ask_password_text = false
  /\ str_eqb username_saved_text username_saved_text = true
  /\ str_eqb ask_password_text ask_username_text = false
  /\ str_eqb ask_password_text ask_password_text = true
  /\ str_eqb ask_password_text username_saved_text = false
  /\ str_eqb ask_username_text ask_username_text = true
  /\ str_eqb ask_username_text ask_password_text = false
  /\ str_eqb ask_username_text username_saved_text = false
  /\ str_eqb menu_text ask_username_text = false
  /\ str_eqb menu_text ask_password_text = false
  /\ str_eqb menu_text username_saved_text = false
  /\ str_eqb help_text ask_username_text = false
  /\ str_eqb help_text ask_password_text = false
  /\ str_eqb help_text username_saved_text = false
  /\ str_eqb password_saved_text ask_username_text = false
  /\ str_eqb password_saved_text ask_password_text = false
  /\ str_eqb password_saved_text username_saved_text = false
  /\ str_eqb welcome_text ask_username_text = false
  /\ str_eqb welcome_text ask_password_text = false
  /\ str_eqb welcome_text username_saved_text = false.
Proof. vm_compute. tauto. Qed.

Ltac use_prompt_table :=
  unfold is_username_prompt, is_password_prompt;
  cbn [content say menu_message];
  let H := fresh "Htable" in
  pose proof prompt_table as H;
  repeat match type of H with
         | _ /\ _ => let E := fresh "E" in destruct H as [E H]; rewrite ?E
         end;
  rewrite ?H; cbn [orb].

Lemma last_two {A} (l : list A) (a b : A) : last (l ++ [a; b]) = Some b.
Proof.
  change (l ++ [a; b]) with (l ++ [a] ++ [b]).
  rewrite app_assoc. apply last_snoc.
Qed.

(** X12: the stage of the sender after an update that does not throw agrees
    with the last message sent: the last message is the prompt for the
    username exactly when the username is awaited, and a prompt for the
    password exactly when the password is awaited. *)
Theorem stage_matches_last_message
  (portal : request -> option response) (msg : message) (w : world) :
  fst (handleMessage portal msg w) = Return tt ->
  exists m : sent,
    last_sent (snd (handleMessage portal msg w)) = Some m
    /\ (is_username_prompt m = true
        <-> stage_of (from_id msg) (snd (handleMessage portal msg w))
            = Some awaiting_username)
    /\ (is_password_prompt m = true
        <-> stage_of (from_id msg) (snd (handleMessage portal msg w))
            = Some awaiting_password).
Proof.
  unfold last_sent, stage_of.
  event_cases portal msg w; intros Hok; try discriminate Hok;
    rewrite ?last_two, ?last_snoc; eexists; (split; [reflexivity |]);
    rewrite ?lookup_insert_eq, ?lookup_delete_eq, ?Hstage;
    try match goal with
        | |- context [report ?c ?r] =>
          destruct (report_is_no_prompt c r) as (-> & ->)
        end;
    use_prompt_table; split; split; congruence.
Qed.

Lemma stage_matches_last_message_witness :
  exists m : sent,
    last_sent (snd (handleMessage Samples.campus
                      (Samples.text_from 7 show_grades_label)
                      Samples.fresh_user)) = Some m
    /\ (is_username_prompt m = true
        <-> stage_of 7 (snd (handleMessage Samples.campus
                               (Samples.text_from 7 show_grades_label)
                               Samples.fresh_user))
            = Some awaiting_username)
    /\ (is_password_prompt m = true
        <-> stage_of 7 (snd (handleMessage Samples.campus
                               (Samples.text_from 7 show_grades_label)
                               Samples.fresh_user))
            = Some awaiting_password).
Proof.
  apply (stage_matches_last_message Samples.campus
           (Samples.text_from 7 show_grades_label) Samples.fresh_user).
  vm_compute. reflexivity.
Defined.

Lemma labels_are_buttons :
  str_eqb help_label (js "/start") = false
  /\ (str_eqb help_label (js "/help") || str_eqb help_label help_label) = true.
Proof. vm_compute. tauto. Qed.

(** X13: every button of the main menu is understood: while no stage is
    open, the text of each label on the keyboard that [showMainMenu] sends
    runs the grade request or the help, not the default menu; the help
    command and the help button do the same. *)
Theorem menu_buttons_are_understood
  (portal : request -> option response) (chatId : Z) (w0 : world) :
  exists (m : sent) (kb : reply_markup),
    last_sent (exec (showMainMenu chatId) w0) = Some m
    /\ markup_of m = Some kb
    /\ (forall (row : list jsstring) (label : jsstring) (msg : message)
               (w : world),
          In row (keyboard kb) -> In label row ->
          userStates w !! from_id msg = None ->
          text_of msg = label ->
          (label = show_grades_label
           /\ handleMessage portal msg w = handleGrades portal msg w)
          \/ (label = help_label
              /\ handleMessage portal msg w = handleHelp msg w))
    /\ (forall (msg : message) (w : world),
          userStates w !! from_id msg = None ->
          text_of msg = js "/help" ->
          handleMessage portal msg w = handleHelp msg w).
Proof.
  exists (menu_message chatId),
    {| keyboard := [ [ show_grades_label; help_label ] ];
       resize_keyboard := true |}.
  split; [| split; [reflexivity | split]].
  - unfold exec, last_sent. rewrite showMainMenu_run. cbn [snd outbox].
    apply last_snoc.
  - intros row label msg w [<- | []] [<- | [<- | []]] Hs Ht.
    + left. split; [reflexivity |].
      now apply handleMessage_show_grades.
    + right. split; [reflexivity |].
      rewrite (handleMessage_idle portal msg w Hs), Ht.
      now destruct labels_are_buttons as (-> & ->).
  - intros msg w Hs Ht. rewrite (handleMessage_idle portal msg w Hs), Ht.
    replace (str_eqb (js "/help") (js "/start")) with false
      by (vm_compute; reflexivity).
    replace (str_eqb (js "/help") (js "/help")) with true
      by (vm_compute; reflexivity).
    reflexivity.
Qed.



(** ** The directory *)

Lemma handler_post_world
  (portal : request -> option response) (msg : message) (w : world) :
  snd (handler portal (POST_update (Some msg)) w)
  = snd (handleMessage portal msg w).
Proof.
  unfold handler. now destruct (handleMessage portal msg w) as [[[] | e] w'].
Qed.

(** X15: the number of users that the status probe reports grows by one
    when a user without profile sends the start command while no stage is
    open, and stays the same after every other update. *)
Theorem status_counts_registrations
  (portal portal' : request -> option response) (msg : message) (w : world) :
  fst (handler portal' GET_status
         (snd (handler portal (POST_update (Some msg)) w)))
  = Online (if registers msg w then S (size (users w))
            else size (users w)).
Proof.
  rewrite handler_post_world. cbn [handler fst]. f_equal.
  unfold registers.
  event_cases portal msg w; repeat case_bool_decide; try congruence;
    cbn [andb]; try reflexivity;
    try (apply map_size_insert_Some; eauto).
  - unfold ensure.
    match goal with H : users w !! from_id msg = None |- _ => rewrite H end.
    now apply map_size_insert_None.
  - unfold ensure. destruct (users w !! from_id msg); [reflexivity |].
    congruence.
Qed.

(** The directory is consistent: a profile is stored under its own
    identifier, and a user whose password is awaited has a username. *)
Lemma handleMessage_consistent
  (portal : request -> option response) (msg : message) (w : world) :
  (forall (k : Z) (u : profile),
     users w !! k = Some u ->
     telegramId u = k
     /\ (userStates w !! k = Some awaiting_password ->
         is_Some (portalUsername u))) ->
  forall (k : Z) (u : profile),
    users (snd (handleMessage portal msg w)) !! k = Some u ->
    telegramId u = k
    /\ (userStates (snd (handleMessage portal msg w)) !! k
        = Some awaiting_password ->
        is_Some (portalUsername u)).
Proof.
  intros Hinv k v.
  assert (Hens : userStates w !! from_id msg = None ->
                 ensure (from_id msg) (first_name msg) (users w) !! k
                 = Some v ->
                 telegramId v = k
                 /\ (userStates w !! k = Some awaiting_password ->
                     is_Some (portalUsername v))).
  { intros Hidle. unfold ensure.
    destruct (users w !! from_id msg) eqn:Hu; [apply Hinv |].
    destruct (decide (k = from_id msg)) as [-> | Hne].
    - rewrite lookup_insert_eq. intros [= <-]. split; [reflexivity |].
      congruence.
    - rewrite lookup_insert_ne by congruence. apply Hinv. }
  event_cases portal msg w; try (apply Hens; reflexivity); try apply Hinv;
    (destruct (decide (k = from_id msg)) as [-> | Hne];
     [ rewrite ?lookup_insert_eq, ?lookup_delete_eq
     | rewrite ?lookup_insert_ne, ?lookup_delete_ne by congruence;
       apply Hinv ]);
    try (intros [= <-]; cbn [telegramId portalUsername set_portalUsername
                              set_portalPassword];
         destruct (Hinv _ _ Hu) as [Hid _]; split; [exact Hid |];
         intros; eauto; congruence);
    try (intros Hv; destruct (Hinv _ _ Hv) as [Hid _]; split; [exact Hid |];
         intros; try congruence;
         replace v with u by congruence;
         destruct (portalUsername u) as [| ]; [eauto | discriminate]).
  - intros [= <-]. destruct (Hinv _ _ Hu) as [Hid _]. split; [exact Hid |].
    intros _. cbn. destruct (portalUsername u); [eauto | discriminate].
  - intros Hv. destruct (Hinv _ _ Hv) as [Hid _]. split; [exact Hid |].
    intros Hs. discriminate Hs.
Qed.

(** X16: in every world the entry point can reach, a profile is stored
    under its own identifier, a user with an open stage has a profile, and a
    user whose password is awaited has a username stored. *)
Theorem reachable_directory_consistent (w : world) (k : Z) :
  reachable w ->
  (forall u : profile, users w !! k = Some u -> telegramId u = k)
  /\ (is_Some (userStates w !! k) ->
      exists u : profile,
        users w !! k = Some u
        /\ (userStates w !! k = Some awaiting_password ->
            is_Some (portalUsername u))).
Proof.
  intros Hreach.
  assert (Hinv : forall (k : Z) (u : profile),
             users w !! k = Some u ->
             telegramId u = k
             /\ (userStates w !! k = Some awaiting_password ->
                 is_Some (portalUsername u))).
  { clear k. induction Hreach as [| portal req w _ IH].
    - intros k u. cbn. rewrite lookup_empty. discriminate.
    - destruct req as [| | [msg |] | |]; try exact IH.
      rewrite handler_post_world. now apply handleMessage_consistent. }
  split.
  - intros u Hu. now apply (Hinv k u).
  - intros Hopen.
    destruct (reachable_stage_has_profile w Hreach k Hopen) as [u Hu].
    exists u. split; [exact Hu |]. now apply (Hinv k u).
Qed.

Lemma reachable_directory_consistent_witness :
  let w :=
    snd (handler Samples.unreachable
           (POST_update (Some (Samples.text_from 7 show_grades_label)))
           (snd (handler Samples.unreachable
                   (POST_update (Some (Samples.text_from 7 (js "/start"))))
                   initial))) in
  stage_of 7 w = Some awaiting_username
  /\ forall u : profile, users w !! 7%Z = Some u -> telegramId u = 7%Z.
Proof.
  intros w. split; [vm_compute; reflexivity |].
  apply (reachable_directory_consistent w 7
           (reachable_step _ _ _ (reachable_step _ _ _ reachable_initial))).
Defined.
